(** * run_amadeus_node.py: the build-and-launch pipeline of the Amadeus node

    A shallow embedding of [AmadeusNodeBuilder] and [main] from
    [run_amadeus_node.py], followed by the properties of the pipeline.

    The script is a sequence of stages that probe the search path, shell out
    to git, a container engine and find, inspect and touch the file system,
    and finally replace the process image.  Each stage is embedded as a
    computation over an explicit state (the builder object, the host, the
    trace of effects performed so far) whose result says how control left
    the stage: normal return, [sys.exit], a raised exception, or a
    successful [os.execve].

    [parse_arguments] is represented by the namespace it returns; Logger
    calls only print and are left out of the embedding. *)

From Stdlib Require Import ZArith String Ascii List Bool Lia.
From stdpp Require Import base gmap strings list pretty.

Local Open Scope Z_scope.
Local Open Scope string_scope.

(** ** Strings *)

Module PyStr.

(** [str.isspace] on one character, for code points below 256: the
    characters that [str.strip()] removes. *)
Definition isspace (c : ascii) : bool :=
  let n := nat_of_ascii c in
  ((9 <=? n)%nat && (n <=? 13)%nat) || ((28 <=? n)%nat && (n <=? 32)%nat)
  || (n =? 133)%nat || (n =? 160)%nat.

Fixpoint lstrip (s : string) : string :=
  match s with
  | String c s' => if isspace c then lstrip s' else s
  | EmptyString => EmptyString
  end.

Definition rstrip (s : string) : string := String.rev (lstrip (String.rev s)).

(** [s.strip()] *)
Definition strip (s : string) : string := rstrip (lstrip s).

(** [s.split(sep)] for a one-character separator. *)
Fixpoint split (sep : ascii) (s : string) : list string :=
  match s with
  | EmptyString => [EmptyString]
  | String c s' =>
      if Ascii.eqb c sep then EmptyString :: split sep s'
      else match split sep s' with
           | h :: t => String c h :: t
           | [] => [String c EmptyString]
           end
  end.

(** [sep.join(l)] *)
Fixpoint join (sep : string) (l : list string) : string :=
  match l with
  | [] => EmptyString
  | [x] => x
  | x :: rest => x +:+ sep +:+ join sep rest
  end.

(** [str(n)] for an [int]. *)
Definition of_int (n : Z) : string := pretty n.

(** [bool(s)]: the truth value of a string in a condition. *)
Definition truthy (s : string) : bool :=
  match s with EmptyString => false | _ => true end.

End PyStr.

(** ** Paths

    [pathlib.Path] on a POSIX host: a root (none, "/" or "//") and the list
    of components, with empty and "." components dropped when the path is
    built from text. *)

Inductive Root := NoRoot | Slash | TwoSlashes.

Record Path := mkPath { p_root : Root; p_parts : list string }.

#[global] Instance Root_eq_dec : EqDecision Root.
Proof. solve_decision. Defined.

#[global] Instance Path_eq_dec : EqDecision Path.
Proof. solve_decision. Defined.

Module PyPath.

Fixpoint leading_slashes (s : string) : nat :=
  match s with
  | String c s' => if Ascii.eqb c "/" then S (leading_slashes s') else O
  | EmptyString => O
  end.

Definition keep_part (x : string) : bool :=
  negb (String.eqb x EmptyString) && negb (String.eqb x ".").

(** [Path(s)] for a string [s]. *)
Definition of_str (s : string) : Path :=
  {| p_root := match leading_slashes s with
               | O => NoRoot
               | 2%nat => TwoSlashes
               | _ => Slash
               end;
     p_parts := List.filter keep_part (PyStr.split "/" s) |}.

Definition root_str (r : Root) : string :=
  match r with NoRoot => EmptyString | Slash => "/" | TwoSlashes => "//" end.

(** [str(p)] *)
Definition to_str (p : Path) : string :=
  match p_root p, p_parts p with
  | NoRoot, [] => "."
  | r, ps => root_str r +:+ PyStr.join "/" ps
  end.

(** [p / s]: a rooted right operand replaces the left one. *)
Definition joinpath (p : Path) (s : string) : Path :=
  let q := of_str s in
  match p_root q with
  | NoRoot => {| p_root := p_root p; p_parts := p_parts p ++ p_parts q |}
  | _ => q
  end.

(** [p.absolute()] with the current directory [cwd]. *)
Definition absolute (cwd p : Path) : Path :=
  match p_root p with
  | NoRoot => {| p_root := p_root cwd; p_parts := p_parts cwd ++ p_parts p |}
  | _ => p
  end.

End PyPath.

Notation "p // s" := (PyPath.joinpath p s) (at level 40, left associativity).

#[global] Arguments PyPath.joinpath : simpl never.
#[global] Arguments PyPath.to_str : simpl never.
#[global] Arguments PyPath.of_str : simpl never.
#[global] Arguments PyPath.absolute : simpl never.
#[global] Arguments PyStr.strip : simpl never.
#[global] Arguments PyStr.of_int : simpl never.


(** ** The host

    What the script can observe of, and do to, the machine it runs on. *)

(** Permission bits are kept per path text, as the script hands it to the
    operating system. *)
Record World := mkWorld {
  w_programs : gset string;          (* names [shutil.which] finds *)
  w_cwd : Path;                      (* [os.getcwd()] *)
  w_environ : gmap string string;    (* [os.environ] *)
  w_files : gmap string Z            (* existing paths and their permission bits *)
}.

(** How [subprocess.run] ended. *)
Inductive ProcResult :=
| Completed (returncode : Z) (stdout stderr : string)
| SpawnFailed     (* an [OSError]: program missing, unusable [cwd] *)
| Interrupted.    (* [KeyboardInterrupt] while waiting for the child *)

(** The parts of the host the script does not implement itself.  A child
    process may rewrite the file table; it cannot touch the working
    directory or the environment of its parent. *)
Record Host := mkHost {
  subprocess_run : list string -> option Path -> World -> ProcResult * gmap string Z;
  realpath : World -> Path -> Path;                       (* [Path.resolve()] *)
  mkdir_parents : Path -> World -> option (gmap string Z);
                                  (* [mkdir(parents=True, exist_ok=True)]; [None]: [OSError] *)
  chmod_ok : Path -> Z -> World -> bool;
                                  (* [false]: [os.chmod] on an existing path raises
                                     [PermissionError], an [OSError] *)
  execve_ok : string -> list string -> gmap string string -> World -> bool
                                  (* [false]: [os.execve] raises [OSError] *)
}.

Definition with_files (w : World) (fs : gmap string Z) : World :=
  {| w_programs := w_programs w; w_cwd := w_cwd w;
     w_environ := w_environ w; w_files := fs |}.

(** [p.exists()] *)
Definition path_exists (w : World) (p : Path) : bool :=
  match w_files w !! PyPath.to_str p with Some _ => true | None => false end.

(** ** The builder object *)

Record AmadeusNodeBuilder := mkBuilder {
  repo_url : string;
  repo_dir : Path;
  builder_image : string;
  binary_name : string;
  port : Z;
  workdir : string;
  container_runtime : string;
  runtime_cmd : option string
}.

(** [AmadeusNodeBuilder.__init__] *)
Definition init (repo_dir_arg : string) (port_arg : Z) (workdir_arg : string)
    (container_runtime_arg : string) : AmadeusNodeBuilder :=
  {| repo_url := "https://github.com/amadeusprotocol/node.git";
     repo_dir := PyPath.of_str repo_dir_arg;
     builder_image := "erlang_builder";
     binary_name := "amadeusd";
     port := port_arg;
     workdir := workdir_arg;
     container_runtime := container_runtime_arg;
     runtime_cmd := None |}.

Definition set_runtime_cmd (b : AmadeusNodeBuilder) (rt : string) : AmadeusNodeBuilder :=
  {| repo_url := repo_url b; repo_dir := repo_dir b;
     builder_image := builder_image b; binary_name := binary_name b;
     port := port b; workdir := workdir b;
     container_runtime := container_runtime b; runtime_cmd := Some rt |}.

Definition set_repo_dir (b : AmadeusNodeBuilder) (d : Path) : AmadeusNodeBuilder :=
  {| repo_url := repo_url b; repo_dir := d;
     builder_image := builder_image b; binary_name := binary_name b;
     port := port b; workdir := workdir b;
     container_runtime := container_runtime b; runtime_cmd := runtime_cmd b |}.

(** ** Effects, states and outcomes *)

Inductive Event :=
| EvWhich (command : string) (found : bool)
| EvRun (cmd : list string) (cwd : option Path) (check capture : bool) (res : ProcResult)
| EvChmod (p : Path) (mode : Z) (ok : bool)
| EvMkdir (p : Path) (ok : bool)
| EvExecve (path : string) (argv : list string) (env : gmap string string) (ok : bool).

Record State := mkState {
  self : AmadeusNodeBuilder;
  world : World;
  trace : list Event        (* oldest first *)
}.

Inductive Exc := KeyboardInterrupt | OSError | TypeError.

(** [except Exception] catches [e]. *)
Definition is_Exception (e : Exc) : bool :=
  match e with KeyboardInterrupt => false | _ => true end.

Inductive Result (A : Type) :=
| Ret (a : A) (s : State)
| SysExit (code : Z) (s : State)
| Raised (e : Exc) (s : State)
| Replaced (path : string) (argv : list string) (env : gmap string string) (s : State).

Arguments Ret {A} a s.
Arguments SysExit {A} code s.
Arguments Raised {A} e s.
Arguments Replaced {A} path argv env s.

Definition M (A : Type) : Type := State -> Result A.

Definition ret {A} (a : A) : M A := fun s => Ret a s.

Definition bind {A B} (m : M A) (k : A -> M B) : M B :=
  fun s =>
    match m s with
    | Ret a s' => k a s'
    | SysExit c s' => SysExit c s'
    | Raised e s' => Raised e s'
    | Replaced p a e s' => Replaced p a e s'
    end.

Notation "x <~ m ;; k" := (bind m (fun x => k))
  (at level 100, m at next level, right associativity).
Notation "m ;;; k" := (bind m (fun _ => k))
  (at level 100, right associativity).

(** [sys.exit(code)] *)
Definition sys_exit {A} (code : Z) : M A := fun s => SysExit code s.

Definition raise {A} (e : Exc) : M A := fun s => Raised e s.

Definition get_self : M AmadeusNodeBuilder := fun s => Ret (self s) s.

Definition get_world : M World := fun s => Ret (world s) s.

Definition put_self (b : AmadeusNodeBuilder) : M unit :=
  fun s => Ret tt {| self := b; world := world s; trace := trace s |}.

Definition put_files (fs : gmap string Z) : M unit :=
  fun s => Ret tt {| self := self s; world := with_files (world s) fs; trace := trace s |}.

Definition emit (e : Event) : M unit :=
  fun s => Ret tt {| self := self s; world := world s; trace := trace s ++ [e] |}.

(** The state in which control left a computation. *)
Definition final_state {A} (r : Result A) : State :=
  match r with
  | Ret _ s | SysExit _ s | Raised _ s | Replaced _ _ _ s => s
  end.

(** [try: m except <classes>: handler] *)
Definition try_except {A} (m : M A) (catches : Exc -> bool) (handler : M A) : M A :=
  fun s =>
    match m s with
    | Raised e s' => if catches e then handler s' else Raised e s'
    | r => r
    end.

(** What [run_command] hands back: the stripped standard output when it was
    captured, the [CompletedProcess] object otherwise. *)
Inductive RunValue := Stdout (text : string) | CompletedProcess (returncode : Z).

(** [d.update({k1: v1, ...})], entries in the order of the literal. *)
Definition dict_update (d : gmap string string) (kvs : list (string * string)) :
    gmap string string :=
  fold_left (fun m kv => <[fst kv := snd kv]> m) kvs d.

(** The values [--container-runtime] can have: [parse_arguments] declares
    [choices=["auto", "docker", "podman"]], and a command line with any
    other value does not get past it. *)
Inductive RuntimeChoice := ChoiceAuto | ChoiceDocker | ChoicePodman.

Definition choice_text (c : RuntimeChoice) : string :=
  match c with
  | ChoiceAuto => "auto"
  | ChoiceDocker => "docker"
  | ChoicePodman => "podman"
  end.

(** The namespace [parse_arguments] returns: two strings, an [int]
    ([type=int]) and one of the three choices.  The parsing of the command
    line itself is left to [argparse] and is not part of the embedding. *)
Record Args := mkArgs {
  arg_repo_dir : string;
  arg_port : Z;
  arg_workdir : string;
  arg_container_runtime : RuntimeChoice
}.

(** How control leaves [main]: by [sys.exit(code)], that is with
    [SystemExit(code)], or never, the process having been taken over by
    another program. *)
Inductive Final :=
| Exited (code : Z)
| Launched (path : string) (argv : list string) (env : gmap string string).

(** The exit status of the process when [SystemExit(code)] leaves the
    script.  The interpreter hands the code to [exit] as a C integer, taking
    -1 for a code that does not fit 64 bits, and the operating system keeps
    the low eight bits: the code itself from 0 to 255, and 247 for -9, the
    return code [subprocess] reports for a child killed by signal 9. *)
Definition exit_status (code : Z) : Z :=
  if (- 2 ^ 63 <=? code)%Z && (code <? 2 ^ 63)%Z then Z.land code 255 else 255.

(** The exit status of the script's process, if it ended as the script. *)
Definition process_status (f : Final) : option Z :=
  match f with
  | Exited code => Some (exit_status code)
  | Launched _ _ _ => None
  end.

(** The builder [main] constructs from the arguments, on host state [w],
    before anything has been done. *)
Definition start (args : Args) (w : World) : State :=
  {| self := init (arg_repo_dir args) (arg_port args) (arg_workdir args)
                  (choice_text (arg_container_runtime args));
     world := w;
     trace := [] |}.

(** ** The stages *)

Section Pipeline.

Context (h : Host).

(** [check_command_exists] *)
Definition check_command_exists (command : string) : M bool :=
  w <~ get_world ;;
  let found := bool_decide (command ∈ w_programs w) in
  emit (EvWhich command found) ;;;
  ret found.

(** [self.runtime_cmd = rt] *)
Definition assign_runtime_cmd (rt : string) : M unit :=
  b <~ get_self ;; put_self (set_runtime_cmd b rt).

(** [detect_container_runtime] *)
Definition detect_container_runtime : M unit :=
  b <~ get_self ;;
  if String.eqb (container_runtime b) "auto" then
    docker <~ check_command_exists "docker" ;;
    if docker then assign_runtime_cmd "docker"
    else
      podman <~ check_command_exists "podman" ;;
      if podman then assign_runtime_cmd "podman"
      else sys_exit 1
  else if String.eqb (container_runtime b) "docker" then
    docker <~ check_command_exists "docker" ;;
    if negb docker then sys_exit 1
    else assign_runtime_cmd "docker"
  else if String.eqb (container_runtime b) "podman" then
    podman <~ check_command_exists "podman" ;;
    if negb podman then sys_exit 1
    else assign_runtime_cmd "podman"
  else sys_exit 1.

(** [run_command]: [subprocess.run] raises [CalledProcessError] only under
    [check] and a non-zero return code; the handler turns it into
    [sys.exit(e.returncode)].  Other exceptions are not handled here. *)
Definition run_command (cmd : list string) (cwd : option Path)
    (check capture_output : bool) : M RunValue :=
  w <~ get_world ;;
  let res := fst (subprocess_run h cmd cwd w) in
  emit (EvRun cmd cwd check capture_output res) ;;;
  put_files (snd (subprocess_run h cmd cwd w)) ;;;
  match res with
  | Completed returncode stdout _ =>
      if check && negb (returncode =? 0)%Z then sys_exit returncode
      else if capture_output then ret (Stdout (PyStr.strip stdout))
      else ret (CompletedProcess returncode)
  | SpawnFailed => raise OSError
  | Interrupted => raise KeyboardInterrupt
  end.

(** The loop of [check_dependencies] that collects [missing_deps]. *)
Fixpoint missing_among (dependencies : list string) : M (list string) :=
  match dependencies with
  | [] => ret []
  | dep :: rest =>
      found <~ check_command_exists dep ;;
      more <~ missing_among rest ;;
      ret (if found then more else dep :: more)
  end.

(** [check_dependencies] *)
Definition check_dependencies : M unit :=
  missing_deps <~ missing_among ["git"; "make"] ;;
  match missing_deps with
  | [] => detect_container_runtime
  | _ :: _ => sys_exit 1
  end.

(** [clone_repository], first half: clone or update the checkout. *)
Definition clone_or_update : M unit :=
  b <~ get_self ;;
  w <~ get_world ;;
  if path_exists w (repo_dir b) then
    run_command ["git"; "pull"; "origin"; "main"] (Some (repo_dir b)) false false ;;;
    ret tt
  else
    run_command ["git"; "clone"; repo_url b; PyPath.to_str (repo_dir b)] None true false ;;;
    ret tt.

(** [clone_repository], second half: resolve [repo_dir] and look for
    [build.Dockerfile]. *)
Definition resolve_build_root : M unit :=
  b <~ get_self ;;
  w <~ get_world ;;
  let resolved := realpath h w (repo_dir b) in
  if negb (path_exists w (resolved // "build.Dockerfile")) then
    let candidate := resolved // "ex" in
    if path_exists w (candidate // "build.Dockerfile") then
      put_self (set_repo_dir b candidate)
    else sys_exit 1
  else ret tt.

(** [clone_repository] *)
Definition clone_repository : M unit :=
  clone_or_update ;;; resolve_build_root.

(** [build_builder_image].  With [runtime_cmd] still [None] the command
    line cannot be joined for the log and [run_command] raises
    [TypeError] before anything is run. *)
Definition build_builder_image : M unit :=
  b <~ get_self ;;
  w <~ get_world ;;
  let dockerfile_path := repo_dir b // "build.Dockerfile" in
  if negb (path_exists w dockerfile_path) then sys_exit 1
  else
    match runtime_cmd b with
    | Some rt =>
        run_command [rt; "build"; "--tag"; builder_image b; "-f"; "build.Dockerfile"; "."]
          (Some (repo_dir b)) true false ;;;
        ret tt
    | None => raise TypeError
    end.

(** [compile_node] *)
Definition compile_node : M unit :=
  b <~ get_self ;;
  w <~ get_world ;;
  match runtime_cmd b with
  | Some rt =>
      run_command
        [rt; "run"; "--rm";
         "-v"; PyPath.to_str (PyPath.absolute (w_cwd w) (repo_dir b)) +:+ ":/app";
         "-w"; "/app"; builder_image b; "make"]
        None true false ;;;
      ret tt
  | None => raise TypeError
  end.

(** [os.chmod(p, mode)]: raises [OSError] on a path that does not exist
    ([FileNotFoundError]) and on one whose mode the host does not let the
    caller change ([PermissionError]); the file table is then as it was. *)
Definition os_chmod (p : Path) (mode : Z) : M unit :=
  w <~ get_world ;;
  match w_files w !! PyPath.to_str p with
  | Some _ =>
      if chmod_ok h p mode w then
        emit (EvChmod p mode true) ;;;
        put_files (<[PyPath.to_str p := mode]> (w_files w))
      else
        emit (EvChmod p mode false) ;;;
        raise OSError
  | None =>
      emit (EvChmod p mode false) ;;;
      raise OSError
  end.

(** [verify_binary] *)
Definition verify_binary : M Path :=
  b <~ get_self ;;
  w <~ get_world ;;
  let binary_path := repo_dir b // binary_name b in
  binary_path <~
    (if negb (path_exists w binary_path) then
       result <~ run_command
                   ["find"; PyPath.to_str (repo_dir b); "-name"; binary_name b; "-type"; "f"]
                   None true true ;;
       match result with
       | Stdout text =>
           if PyStr.truthy text then ret (PyPath.of_str text) else sys_exit 1
       | CompletedProcess _ => raise TypeError
       end
     else ret binary_path) ;;
  os_chmod binary_path 493 ;;;      (* 0o755 *)
  ret binary_path.

(** [create_work_directory] *)
Definition create_work_directory : M unit :=
  b <~ get_self ;;
  w <~ get_world ;;
  let workdir_path := PyPath.of_str (workdir b) in
  match mkdir_parents h workdir_path w with
  | Some fs => emit (EvMkdir workdir_path true) ;;; put_files fs
  | None => emit (EvMkdir workdir_path false) ;;; raise OSError
  end.

(** [os.execve(path, argv, env)]: on success the script's code never
    resumes. *)
Definition os_execve (path : string) (argv : list string)
    (env : gmap string string) : M unit :=
  w <~ get_world ;;
  if execve_ok h path argv env w then
    emit (EvExecve path argv env true) ;;;
    (fun s => Replaced path argv env s)
  else
    emit (EvExecve path argv env false) ;;;
    raise OSError.

(** The environment [run_node] builds: a copy of [os.environ], updated. *)
Definition node_env (b : AmadeusNodeBuilder) (environ : gmap string string) :
    gmap string string :=
  dict_update environ
    [("TESTNET", "true");
     ("WORKFOLDER", workdir b);
     ("HTTP_IPV4", "127.0.0.1");
     ("HTTP_PORT", PyStr.of_int (port b))].

(** [run_node] *)
Definition run_node (binary_path : Path) : M unit :=
  b <~ get_self ;;
  w <~ get_world ;;
  let env := node_env b (w_environ w) in
  try_except
    (os_execve (PyPath.to_str binary_path) [PyPath.to_str binary_path] env)
    (fun e => match e with OSError => true | _ => false end)
    (sys_exit 1).

(** [build_and_run] *)
Definition build_and_run : M unit :=
  check_dependencies ;;;
  clone_repository ;;;
  build_builder_image ;;;
  compile_node ;;;
  binary_path <~ verify_binary ;;
  create_work_directory ;;;
  run_node binary_path.

(** [main], once [parse_arguments] has returned [args]: the code it hands
    to [sys.exit], or the program that took the process over, together with
    the final state.  A normal return of [build_and_run] would let the
    script run off its end. *)
Definition main (args : Args) (w : World) : Final * State :=
  match build_and_run (start args w) with
  | Ret _ s => (Exited 0, s)
  | SysExit code s => (Exited code, s)
  | Raised e s => (if is_Exception e then Exited 1 else Exited 0, s)
  | Replaced path argv env s => (Launched path argv env, s)
  end.

End Pipeline.

(** ** Reading traces *)

(** The event is an image build: [<engine> build ...]. *)
Definition is_image_build (e : Event) : bool :=
  match e with
  | EvRun (_ :: verb :: _) _ _ _ _ => String.eqb verb "build"
  | _ => false
  end.

Definition image_build_invoked (tr : list Event) : bool := existsb is_image_build tr.

(** Owner, group and others may execute a file with these permission bits. *)
Definition executable_by_all (mode : Z) : bool :=
  Z.testbit mode 6 && Z.testbit mode 3 && Z.testbit mode 0.

(** The first line of a command's output. *)
Definition first_line (out : string) : string :=
  match PyStr.split "010" out with
  | l :: _ => l
  | [] => EmptyString
  end.

(** ** States reached by a stage *)

(** [s] after the effects [evs]. *)
Definition logged (s : State) (evs : list Event) : State :=
  {| self := self s; world := world s; trace := trace s ++ evs |}.

(** [s] after the probes [evs] settled on the engine [rt]. *)
Definition selected (s : State) (rt : string) (evs : list Event) : State :=
  {| self := set_runtime_cmd (self s) rt; world := world s; trace := trace s ++ evs |}.

(** [s] after a child process left the file table [fs], recorded as [ev]. *)
Definition ran (s : State) (ev : Event) (fs : gmap string Z) : State :=
  {| self := self s; world := with_files (world s) fs; trace := trace s ++ [ev] |}.

(** [s] with the build root moved to [d]. *)
Definition rerooted (s : State) (d : Path) : State :=
  {| self := set_repo_dir (self s) d; world := world s; trace := trace s |}.

(** The two places [clone_repository] looks for the build descriptor, below
    the resolved checkout directory. *)
Definition descriptor_at_root (h : Host) (s : State) : bool :=
  path_exists (world s)
    (realpath h (world s) (repo_dir (self s)) // "build.Dockerfile").

Definition descriptor_at_ex (h : Host) (s : State) : bool :=
  path_exists (world s)
    (realpath h (world s) (repo_dir (self s)) // "ex" // "build.Dockerfile").

(** The command lines of the checkout step. *)
Definition git_pull : list string := ["git"; "pull"; "origin"; "main"].

Definition git_clone (b : AmadeusNodeBuilder) : list string :=
  ["git"; "clone"; repo_url b; PyPath.to_str (repo_dir b)].

(** The fallback search of [verify_binary]. *)
Definition find_binary (b : AmadeusNodeBuilder) : list string :=
  ["find"; PyPath.to_str (repo_dir b); "-name"; binary_name b; "-type"; "f"].

(** [s] after a successful [os.chmod(p, mode)]. *)
Definition chmodded (s : State) (p : Path) (mode : Z) : State :=
  {| self := self s;
     world := with_files (world s) (<[PyPath.to_str p := mode]> (w_files (world s)));
     trace := trace s ++ [EvChmod p mode true] |}.

(** The conventional place of the binary: directly inside the build root. *)
Definition conventional_path (b : AmadeusNodeBuilder) : Path :=
  repo_dir b // binary_name b.

(** ** Relations between the state before and after a stage *)

(** [m] keeps [R]: wherever [m] is started and however it ends, the state it
    ends in is related by [R] to the state it started in. *)
Definition keeps {A} (R : State -> State -> Prop) (m : M A) : Prop :=
  forall s, R s (final_state (m s)).

(** The configuration supplied at start-up is still what it was. *)
Definition config_kept (s s' : State) : Prop :=
  port (self s') = port (self s)
  /\ workdir (self s') = workdir (self s)
  /\ container_runtime (self s') = container_runtime (self s).

(** The script's own environment and working directory are what they were. *)
Definition process_kept (s s' : State) : Prop :=
  w_environ (world s') = w_environ (world s) /\ w_cwd (world s') = w_cwd (world s).

Definition repo_dir_kept (s s' : State) : Prop :=
  repo_dir (self s') = repo_dir (self s).

(** An [os.execve] call names the program as its only argument and hands
    over the environment built from [b] and [environ]. *)
Definition launch_shape (b : AmadeusNodeBuilder) (environ : gmap string string)
    (e : Event) : Prop :=
  match e with
  | EvExecve path argv env _ => argv = [path] /\ env = node_env b environ
  | _ => True
  end.

(** The state still carries the port, work directory and environment of
    [b] and [environ], and every launch so far had the shape above. *)
Definition launches_shaped (b : AmadeusNodeBuilder) (environ : gmap string string)
    (s : State) : Prop :=
  port (self s) = port b /\ workdir (self s) = workdir b
  /\ w_environ (world s) = environ
  /\ Forall (launch_shape b environ) (trace s).

Definition orderly (b : AmadeusNodeBuilder) (environ : gmap string string)
    (s s' : State) : Prop :=
  config_kept s s' /\ process_kept s s'
  /\ (launches_shaped b environ s -> launches_shaped b environ s').

(** A successful [os.execve] is the last thing a run records. *)
Definition records_launch {A} (m : M A) : Prop :=
  forall s path argv env s',
    m s = Replaced path argv env s' ->
    last (trace s') = Some (EvExecve path argv env true).

(** No image build has been started, if none had been before. *)
Definition no_build_kept (s s' : State) : Prop :=
  image_build_invoked (trace s) = false -> image_build_invoked (trace s') = false.

(** ** Exit statuses *)

(** The code an effect makes the script hand to [sys.exit], if it ends
    the run: a checked command that returned non-zero, an interrupt, or an
    operating-system error. *)
Definition verdict (e : Event) : option Z :=
  match e with
  | EvRun _ _ check _ (Completed rc _ _) =>
      if check && negb (rc =? 0)%Z then Some rc else None
  | EvRun _ _ _ _ SpawnFailed => Some 1
  | EvRun _ _ _ _ Interrupted => Some 0
  | EvChmod _ _ false => Some 1
  | EvMkdir _ false => Some 1
  | EvExecve _ _ _ false => Some 1
  | _ => None
  end.

(** The code [main] hands to [sys.exit] for a result that reaches it;
    [None] while the run goes on or after the process has been replaced. *)
Definition status_of {A} (r : Result A) : option Z :=
  match r with
  | Ret _ _ => None
  | SysExit c _ => Some c
  | Raised e _ => Some (if is_Exception e then 1 else 0)
  | Replaced _ _ _ _ => None
  end.

(** Reads a stretch of trace: [Some None] when no effect in it ends the
    run, [Some (Some c)] when its last effect ends the run with code [c],
    [None] when an effect that ends the run is followed by another. *)
Fixpoint classify (evs : list Event) : option (option Z) :=
  match evs with
  | [] => Some None
  | e :: rest =>
      match verdict e with
      | None => classify rest
      | Some c => match rest with [] => Some (Some c) | _ :: _ => None end
      end
  end.

(** The result [r] of a computation started in [s] is accounted for by the
    effects it added to the trace. *)
Definition explained {A} (s : State) (r : Result A) : Prop :=
  exists evs : list Event,
    trace (final_state r) = (trace s ++ evs)%list
    /\ match classify evs with
       | Some None => status_of r = None \/ status_of r = Some 1
       | Some (Some c) => status_of r = Some c
       | None => False
       end.

Definition accounted {A} (m : M A) : Prop := forall s, explained s (m s).

(** [m] never replaces the process. *)
Definition never_replaces {A} (m : M A) : Prop :=
  forall s path argv env s', m s <> Replaced path argv env s'.

(** ** Sample hosts, for concrete runs *)

Module Demo.

(** What each command line does to the file table, and how it ends. *)
Definition script := list string -> gmap string Z -> ProcResult * gmap string Z.

(** A host on which the caller owns every file. *)
Definition host (run : script) (can_exec : bool) : Host :=
  {| subprocess_run := fun cmd _ w => run cmd (w_files w);
     realpath := fun w p => PyPath.absolute (w_cwd w) p;
     mkdir_parents := fun p w =>
       match w_files w !! PyPath.to_str p with
       | Some _ => Some (w_files w)
       | None => Some (<[PyPath.to_str p := 493]> (w_files w))
       end;
     chmod_ok := fun _ _ _ => true;
     execve_ok := fun _ _ _ _ => can_exec |}.

Definition files_of (paths : list string) : gmap string Z :=
  list_to_map (map (fun p => (p, 420)) paths).

Definition world_of (programs : list string) (paths : list string) : World :=
  {| w_programs := list_to_set programs;
     w_cwd := PyPath.of_str "/home/user";
     w_environ := <["HTTP_PORT" := "1234"]> (<["PATH" := "/usr/bin"]> ∅);
     w_files := files_of paths |}.

Definition args (runtime : RuntimeChoice) : Args :=
  {| arg_repo_dir := "/opt/amadeus"; arg_port := 9090;
     arg_workdir := "/data/x"; arg_container_runtime := runtime |}.

(** Every command succeeds and leaves the files alone. *)
Definition all_succeed : script := fun _ fs => (Completed 0 EmptyString EmptyString, fs).

(** Commands whose second word is [verb] end with [rc]; the rest succeed. *)
Definition failing (verb : string) (rc : Z) : script :=
  fun cmd fs =>
    match cmd with
    | _ :: v :: _ =>
        if String.eqb v verb then (Completed rc EmptyString "failed", fs)
        else (Completed 0 EmptyString EmptyString, fs)
    | _ => (Completed 0 EmptyString EmptyString, fs)
    end.

(** [find] prints [out]; the other commands succeed silently. *)
Definition find_prints (out : string) : script :=
  fun cmd fs =>
    match cmd with
    | prog :: _ =>
        if String.eqb prog "find" then (Completed 0 out EmptyString, fs)
        else (Completed 0 EmptyString EmptyString, fs)
    | _ => (Completed 0 EmptyString EmptyString, fs)
    end.

Definition tools := ["git"; "make"; "docker"; "podman"].

(** A machine with podman and without docker. *)
Definition podman_only_world : World :=
  world_of ["git"; "make"; "podman"] ["/opt/amadeus"; "/opt/amadeus/build.Dockerfile"].

(** A checkout with the descriptor and the binary at the top level. *)
Definition plain_world : World :=
  world_of tools ["/opt/amadeus"; "/opt/amadeus/build.Dockerfile"; "/opt/amadeus/amadeusd"].

(** A checkout with the descriptor under [ex] only. *)
Definition ex_world : World :=
  world_of tools ["/opt/amadeus"; "/opt/amadeus/ex/build.Dockerfile";
                  "/opt/amadeus/ex/amadeusd"].

(** A checkout without any descriptor. *)
Definition bare_world : World := world_of tools ["/opt/amadeus"].

(** No checkout yet. *)
Definition empty_world : World := world_of tools [].

(** The build left two binaries below the top level, none at it. *)
Definition two_binaries_world : World :=
  world_of tools ["/opt/amadeus"; "/opt/amadeus/build.Dockerfile";
                  "/opt/amadeus/a/amadeusd"; "/opt/amadeus/b/amadeusd"].

Definition two_matches : string :=
  "/opt/amadeus/a/amadeusd
/opt/amadeus/b/amadeusd
".

(** The build left one binary, below the top level. *)
Definition nested_binary_world : World :=
  world_of tools ["/opt/amadeus"; "/opt/amadeus/build.Dockerfile";
                  "/opt/amadeus/_build/amadeusd"].

Definition state_of (b : AmadeusNodeBuilder) (w : World) : State :=
  {| self := b; world := w; trace := [] |}.

Definition silence : ProcResult := Completed 0 EmptyString EmptyString.

(** The state [state_of b w] after [git pull] ended with [res], files
    untouched. *)
Definition pulled (b : AmadeusNodeBuilder) (w : World) (res : ProcResult) : State :=
  ran (state_of b w) (EvRun git_pull (Some (repo_dir b)) false false res) (w_files w).

Definition builder (runtime : string) : AmadeusNodeBuilder :=
  init "/opt/amadeus" 9090 "/data/x" runtime.

End Demo.

(** ** More sample hosts *)

Module Scenario.

(** Commands whose first word is [prog] end with [res]; the rest succeed
    silently. *)
Definition program_ends (prog : string) (res : ProcResult) : Demo.script :=
  fun cmd fs =>
    match cmd with
    | p :: _ => if String.eqb p prog then (res, fs) else (Demo.silence, fs)
    | [] => (Demo.silence, fs)
    end.


(** The host [h], except that the files belong to somebody else: every
    [os.chmod] is refused. *)
Definition foreign_files (h : Host) : Host :=
  {| subprocess_run := subprocess_run h;
     realpath := realpath h;
     mkdir_parents := mkdir_parents h;
     chmod_ok := fun _ _ _ => false;
     execve_ok := execve_ok h |}.

(** A machine without git. *)
Definition no_git_world : World := Demo.world_of ["make"; "docker"] ["/opt/amadeus"].

(** The builder once [check_dependencies] has run on [Demo.plain_world]. *)
Definition ready : State :=
  final_state (check_dependencies (Demo.state_of (Demo.builder "auto") Demo.plain_world)).

End Scenario.

(** ** Outcomes of a run *)


(** The effect does not end the run. *)
Definition harmless (e : Event) : Prop := verdict e = None.

(** The effect is a probe of the search path. *)
Definition is_probe (e : Event) : Prop :=
  match e with EvWhich _ _ => True | _ => False end.

(** ** The order of the stages *)

(** The stage an effect belongs to: 0 for the probes, then 1 the checkout,
    2 the image build, 3 the compilation, 4 the search for the binary, 5 the
    permission change, 6 the work directory and 7 the launch; 8 for anything
    else. *)
Definition phase (e : Event) : nat :=
  match e with
  | EvWhich _ _ => 0
  | EvRun (head :: verb :: _) _ _ _ _ =>
      if String.eqb head "git" then 1
      else if String.eqb head "find" then 4
      else if String.eqb verb "build" then 2
      else if String.eqb verb "run" then 3
      else 8
  | EvRun _ _ _ _ _ => 8
  | EvChmod _ _ _ => 5
  | EvMkdir _ _ => 6
  | EvExecve _ _ _ _ => 7
  end.

(** An effect of phase [q] may follow one of phase [p]: probes may repeat,
    every later phase occurs at most once and in order. *)
Definition may_follow (p q : nat) : bool :=
  ((p <? q)%nat || ((q =? 0)%nat && (p =? 0)%nat)) && (q <? 8)%nat.

(** Walks a trace from phase [prev]: the phase it ends in, or [None] when
    some effect is out of order. *)
Fixpoint advance (prev : nat) (tr : list Event) : option nat :=
  match tr with
  | [] => Some prev
  | e :: rest => if may_follow prev (phase e) then advance (phase e) rest else None
  end.

Definition forward (tr : list Event) : bool :=
  match advance 0 tr with Some _ => true | None => false end.

(** The engine the builder has selected, if any, is docker or podman. *)
Definition engine_named (b : AmadeusNodeBuilder) : Prop :=
  forall rt, runtime_cmd b = Some rt -> rt = "docker" \/ rt = "podman".

(** The trace is in stage order and has come no further than phase [k]. *)
Definition in_order (k : nat) (s : State) : Prop :=
  engine_named (self s)
  /\ exists p, advance 0 (trace s) = Some p /\ (p <= k)%nat.

(** Started in a state with [P], [m] ends in a state with [Q]. *)
Definition leads {A} (P Q : State -> Prop) (m : M A) : Prop :=
  forall s, P s -> Q (final_state (m s)).

(** ** The commands the script runs *)

(** The command lines of the script, given the engine it has selected. *)
Definition listed (engine : option string) (e : Event) : Prop :=
  match e with
  | EvRun cmd cwd check capture _ =>
      (cmd = git_pull /\ check = false /\ capture = false)
      \/ (exists dir,
            cmd = ["git"; "clone"; "https://github.com/amadeusprotocol/node.git"; dir]
            /\ cwd = None /\ check = true /\ capture = false)
      \/ (exists dir,
            cmd = ["find"; dir; "-name"; "amadeusd"; "-type"; "f"]
            /\ cwd = None /\ check = true /\ capture = true)
      \/ (exists rt,
            engine = Some rt /\ check = true /\ capture = false
            /\ (cmd = [rt; "build"; "--tag"; "erlang_builder"; "-f"; "build.Dockerfile"; "."]
                \/ exists dir,
                     cmd = [rt; "run"; "--rm"; "-v"; dir +:+ ":/app"; "-w"; "/app";
                            "erlang_builder"; "make"] /\ cwd = None))
  | _ => True
  end.

(** The builder still has the names [__init__] gave it, the engine it has
    selected (if any) is docker or podman and among [programs], and every
    command run so far is listed. *)
Definition equipped (programs : gset string) (s : State) : Prop :=
  repo_url (self s) = "https://github.com/amadeusprotocol/node.git"
  /\ builder_image (self s) = "erlang_builder"
  /\ binary_name (self s) = "amadeusd"
  /\ w_programs (world s) = programs
  /\ (forall rt, runtime_cmd (self s) = Some rt ->
                 (rt = "docker" \/ rt = "podman") /\ rt ∈ programs)
  /\ Forall (listed (runtime_cmd (self s))) (trace s).

(** As [equipped], before any engine has been selected. *)
Definition unequipped (programs : gset string) (s : State) : Prop :=
  runtime_cmd (self s) = None /\ equipped programs s.

(** ** Shapes of strings and paths *)

(** Every character of [s] is white space. *)
Fixpoint all_space (s : string) : bool :=
  match s with
  | EmptyString => true
  | String c s' => PyStr.isspace c && all_space s'
  end.

(** [s] does not begin with white space. *)
Definition starts_clean (s : string) : bool :=
  match s with
  | EmptyString => true
  | String c _ => negb (PyStr.isspace c)
  end.

(** [s] does not end with white space. *)
Definition ends_clean (s : string) : bool := starts_clean (String.rev s).

(** No character of [s] is a slash. *)
Fixpoint slash_free (s : string) : bool :=
  match s with
  | EmptyString => true
  | String c s' => negb (Ascii.eqb c "/") && slash_free s'
  end.

(** A component as [Path] keeps them: not empty, not ".", without slash. *)
Definition proper_part (x : string) : bool := PyPath.keep_part x && slash_free x.

(** * Properties *)

(** ** Sample runs *)

Example strip_find_output :
  PyStr.strip " /r/ex/amadeusd
" = "/r/ex/amadeusd".
Proof. reflexivity. Qed.

Example of_int_samples :
  PyStr.of_int 9090 = "9090" /\ PyStr.of_int (-3) = "-3" /\ PyStr.of_int 0 = "0".
Proof. vm_compute. auto. Qed.

Example path_samples :
  PyPath.to_str (PyPath.of_str "amadeus-node" // "ex" // "build.Dockerfile")
  = "amadeus-node/ex/build.Dockerfile"
  /\ PyPath.to_str (PyPath.of_str "/opt//amadeus/./") = "/opt/amadeus"
  /\ PyPath.to_str (PyPath.of_str EmptyString) = ".".
Proof. vm_compute. auto. Qed.

(** ** The monad *)

Lemma bind_Ret {A B} (m : M A) (k : A -> M B) s a s' :
  m s = Ret a s' -> bind m k s = k a s'.
Proof. intros E. unfold bind. now rewrite E. Qed.

Lemma bind_SysExit {A B} (m : M A) (k : A -> M B) s c s' :
  m s = SysExit c s' -> bind m k s = SysExit c s'.
Proof. intros E. unfold bind. now rewrite E. Qed.

Lemma bind_assoc {A B C} (m : M A) (f : A -> M B) (g : B -> M C) s :
  bind (bind m f) g s = bind m (fun a => bind (f a) g) s.
Proof. unfold bind. destruct (m s); reflexivity. Qed.

(** Unfolds the plumbing of the monad, leaving the host's answers. *)
Ltac plumbing :=
  cbv [bind ret get_self get_world put_self put_files emit sys_exit raise
       try_except assign_runtime_cmd final_state] in *;
  cbn [self world trace] in *.

(** ** RuntimeSelector *)

Lemma probe_found (c : string) (w : World) :
  c ∈ w_programs w -> bool_decide (c ∈ w_programs w) = true.
Proof. intros H. now apply bool_decide_eq_true. Qed.

Lemma probe_missing (c : string) (w : World) :
  c ∉ w_programs w -> bool_decide (c ∈ w_programs w) = false.
Proof. intros H. now apply bool_decide_eq_false. Qed.

(** C4. Under [auto] the selector probes docker first and takes it when it
    is there, whether or not podman is there too; without docker it probes
    podman and takes it when it is there; with neither it exits with status
    1.  Under an explicit [docker] or [podman] it probes that engine alone,
    takes it when it is there and exits with status 1 when it is not, never
    probing the other engine.  Taking an engine means that [runtime_cmd]
    holds its name afterwards; an exit leaves [runtime_cmd] as it was. *)
Theorem detect_container_runtime_selects (s : State) :
  let installed c := c ∈ w_programs (world s) in
  let preference := container_runtime (self s) in
  let engine_after := runtime_cmd (self (final_state (detect_container_runtime s))) in
  (preference = "auto" ->
     (installed "docker" ->
        detect_container_runtime s
        = Ret tt (selected s "docker" [EvWhich "docker" true])
        /\ engine_after = Some "docker")
     /\ (~ installed "docker" -> installed "podman" ->
        detect_container_runtime s
        = Ret tt (selected s "podman" [EvWhich "docker" false; EvWhich "podman" true])
        /\ engine_after = Some "podman")
     /\ (~ installed "docker" -> ~ installed "podman" ->
        detect_container_runtime s
        = SysExit 1 (logged s [EvWhich "docker" false; EvWhich "podman" false])
        /\ engine_after = runtime_cmd (self s)))
  /\ (preference = "docker" ->
     (installed "docker" ->
        detect_container_runtime s
        = Ret tt (selected s "docker" [EvWhich "docker" true])
        /\ engine_after = Some "docker")
     /\ (~ installed "docker" ->
        detect_container_runtime s = SysExit 1 (logged s [EvWhich "docker" false])
        /\ engine_after = runtime_cmd (self s)))
  /\ (preference = "podman" ->
     (installed "podman" ->
        detect_container_runtime s
        = Ret tt (selected s "podman" [EvWhich "podman" true])
        /\ engine_after = Some "podman")
     /\ (~ installed "podman" ->
        detect_container_runtime s = SysExit 1 (logged s [EvWhich "podman" false])
        /\ engine_after = runtime_cmd (self s)))
  /\ (forall s',
        detect_container_runtime s = Ret tt s' ->
        (runtime_cmd (self s') = Some "docker" \/ runtime_cmd (self s') = Some "podman")
        /\ repo_url (self s') = repo_url (self s)
        /\ repo_dir (self s') = repo_dir (self s)
        /\ builder_image (self s') = builder_image (self s)
        /\ binary_name (self s') = binary_name (self s)
        /\ port (self s') = port (self s)
        /\ workdir (self s') = workdir (self s)
        /\ container_runtime (self s') = container_runtime (self s)
        /\ world s' = world s).
Proof.
  intros installed preference engine_after. subst installed preference engine_after.
  unfold detect_container_runtime, check_command_exists, selected, logged.
  split; [|split; [|split]].
  4: { intros s'. plumbing.
       destruct (String.eqb (container_runtime (self s)) "auto");
         [|destruct (String.eqb (container_runtime (self s)) "docker");
           [|destruct (String.eqb (container_runtime (self s)) "podman")]];
         repeat (destruct (bool_decide _); cbn [negb self world trace]);
         intros [= <-]; cbn; repeat split; auto. }
  all: repeat split; intros; plumbing;
    repeat match goal with
      | H : container_runtime _ = _ |- _ => rewrite H; cbn; clear H
      | H : _ ∈ w_programs _ |- _ => rewrite (probe_found _ _ H); cbn; clear H
      | H : ~ _ ∈ w_programs _ |- _ => rewrite (probe_missing _ _ H); cbn; clear H
      end;
    rewrite <- ?app_assoc; reflexivity.
Qed.

Lemma detect_container_runtime_selects_witness :
  (detect_container_runtime (Demo.state_of (Demo.builder "auto") Demo.plain_world)
   = Ret tt (selected (Demo.state_of (Demo.builder "auto") Demo.plain_world)
               "docker" [EvWhich "docker" true])
   /\ runtime_cmd (self (final_state (detect_container_runtime
                                        (Demo.state_of (Demo.builder "auto") Demo.plain_world))))
      = Some "docker")
  /\ (detect_container_runtime (Demo.state_of (Demo.builder "docker") Demo.podman_only_world)
      = SysExit 1 (logged (Demo.state_of (Demo.builder "docker") Demo.podman_only_world)
                     [EvWhich "docker" false])
      /\ runtime_cmd (self (final_state (detect_container_runtime
                                           (Demo.state_of (Demo.builder "docker")
                                              Demo.podman_only_world))))
         = None).
Proof.
  split.
  - apply (proj1 (detect_container_runtime_selects
                    (Demo.state_of (Demo.builder "auto") Demo.plain_world))).
    + reflexivity.
    + apply (bool_decide_unpack _). vm_compute. exact I.
  - apply (proj2 (proj1 (proj2 (detect_container_runtime_selects
                    (Demo.state_of (Demo.builder "docker") Demo.podman_only_world)))
                    eq_refl)).
    intros Hin. apply (bool_decide_pack _) in Hin. vm_compute in Hin. exact Hin.
Defined.

(** ** SourcePreparer *)

Lemma run_command_completed (h : Host) cmd cwd check capture s rc out err fs :
  subprocess_run h cmd cwd (world s) = (Completed rc out err, fs) ->
  run_command h cmd cwd check capture s
  = let s' := ran s (EvRun cmd cwd check capture (Completed rc out err)) fs in
    if check && negb (rc =? 0)%Z then SysExit rc s'
    else if capture then Ret (Stdout (PyStr.strip out)) s'
    else Ret (CompletedProcess rc) s'.
Proof.
  intros E. unfold run_command, ran. plumbing. rewrite E. cbn.
  destruct (check && negb (rc =? 0)%Z); [reflexivity|].
  destruct capture; reflexivity.
Qed.

Lemma clone_or_update_pull (h : Host) s rc out err fs :
  path_exists (world s) (repo_dir (self s)) = true ->
  subprocess_run h git_pull (Some (repo_dir (self s))) (world s)
  = (Completed rc out err, fs) ->
  clone_or_update h s
  = Ret tt (ran s (EvRun git_pull (Some (repo_dir (self s))) false false
                     (Completed rc out err)) fs).
Proof.
  intros Hdir E. unfold clone_or_update, bind, get_self, get_world.
  rewrite Hdir. fold git_pull. rewrite (run_command_completed _ _ _ _ _ _ _ _ _ _ E).
  reflexivity.
Qed.

Lemma clone_or_update_clone (h : Host) s rc out err fs :
  path_exists (world s) (repo_dir (self s)) = false ->
  subprocess_run h (git_clone (self s)) None (world s) = (Completed rc out err, fs) ->
  clone_or_update h s
  = let s' := ran s (EvRun (git_clone (self s)) None true false (Completed rc out err)) fs in
    if (rc =? 0)%Z then Ret tt s' else SysExit rc s'.
Proof.
  intros Hdir E. unfold clone_or_update, bind, get_self, get_world.
  rewrite Hdir. fold (git_clone (self s)).
  rewrite (run_command_completed _ _ _ _ _ _ _ _ _ _ E). cbn.
  destruct (rc =? 0)%Z; reflexivity.
Qed.

Lemma resolve_build_root_cases (h : Host) s :
  resolve_build_root h s
  = if descriptor_at_root h s then Ret tt s
    else if descriptor_at_ex h s
         then Ret tt (rerooted s (realpath h (world s) (repo_dir (self s)) // "ex"))
         else SysExit 1 s.
Proof.
  unfold resolve_build_root, descriptor_at_root, descriptor_at_ex, rerooted. plumbing.
  set (resolved := realpath h (world s) (repo_dir (self s))).
  destruct (path_exists (world s) (resolved // "build.Dockerfile")); cbn; [reflexivity|].
  destruct (path_exists (world s) (resolved // "ex" // "build.Dockerfile")); reflexivity.
Qed.

(** C2. Once the clone or update step has returned, [clone_repository]
    settles the build root, which it keeps in [repo_dir]: the checkout
    directory itself when the descriptor is directly inside it, [repo_dir]
    then being what it was; else the [ex] subdirectory of the resolved
    checkout directory when the descriptor is there, [repo_dir] then being
    that subdirectory and holding the descriptor; else it exits with status
    1.  Nothing else of the builder, the host or the trace changes. *)
Theorem clone_repository_build_root (h : Host) (s s' : State) :
  clone_or_update h s = Ret tt s' ->
  let resolved := realpath h (world s') (repo_dir (self s')) in
  let after := final_state (clone_repository h s) in
  (descriptor_at_root h s' = true ->
     clone_repository h s = Ret tt s'
     /\ repo_dir (self after) = repo_dir (self s))
  /\ (descriptor_at_root h s' = false -> descriptor_at_ex h s' = true ->
     clone_repository h s = Ret tt (rerooted s' (resolved // "ex"))
     /\ repo_dir (self after) = resolved // "ex"
     /\ path_exists (world after) (repo_dir (self after) // "build.Dockerfile") = true
     /\ repo_url (self after) = repo_url (self s')
     /\ builder_image (self after) = builder_image (self s')
     /\ binary_name (self after) = binary_name (self s')
     /\ port (self after) = port (self s')
     /\ workdir (self after) = workdir (self s')
     /\ container_runtime (self after) = container_runtime (self s')
     /\ runtime_cmd (self after) = runtime_cmd (self s')
     /\ world after = world s'
     /\ trace after = trace s')
  /\ (descriptor_at_root h s' = false -> descriptor_at_ex h s' = false ->
     clone_repository h s = SysExit 1 s'
     /\ repo_dir (self after) = repo_dir (self s)).
Proof.
  intros Hup resolved after. subst resolved after.
  assert (self s' = self s) as Hself.
  { revert Hup. unfold clone_or_update, run_command. plumbing.
    destruct (path_exists (world s) (repo_dir (self s)));
      destruct (fst (subprocess_run h _ _ (world s))) as [rc out err| |];
      cbn [andb negb]; try discriminate;
      try (destruct (negb (rc =? 0)%Z); try discriminate);
      intros [= <-]; reflexivity. }
  unfold clone_repository.
  rewrite (bind_Ret _ _ _ _ _ Hup), resolve_build_root_cases.
  split; [|split].
  - intros ->. cbn. now rewrite Hself.
  - intros Hroot Hex. rewrite Hroot, Hex. cbn [final_state].
    split; [reflexivity|]. split; [reflexivity|]. split; [exact Hex|].
    repeat split.
  - intros -> ->. cbn. now rewrite Hself.
Qed.

Lemma clone_repository_build_root_witness :
  let h := Demo.host Demo.all_succeed true in
  let b := Demo.builder "auto" in
  let s' := Demo.pulled b Demo.ex_world Demo.silence in
  let after := final_state (clone_repository h (Demo.state_of b Demo.ex_world)) in
  repo_dir (self after) = realpath h (world s') (repo_dir (self s')) // "ex"
  /\ repo_dir (self after) = PyPath.of_str "/opt/amadeus/ex"
  /\ path_exists (world after) (repo_dir (self after) // "build.Dockerfile") = true.
Proof.
  intros h b s' after.
  destruct (proj1 (proj2 (clone_repository_build_root h (Demo.state_of b Demo.ex_world) s'
                            ltac:(vm_compute; reflexivity)))
              ltac:(vm_compute; reflexivity) ltac:(vm_compute; reflexivity))
    as (_ & Hdir & Hfile & _).
  split; [exact Hdir|]. split; [|exact Hfile].
  unfold after. rewrite Hdir. vm_compute. reflexivity.
Defined.

(** C5. With the checkout directory present, [git pull] is run unchecked:
    whatever its return code, the checkout step returns normally and the
    pipeline goes on to resolve the build root on what the pull left on
    disk.  With the checkout directory absent, [git clone] is run checked:
    a non-zero return code ends the step, and with it the whole run, with
    that code. *)
Theorem pull_failure_tolerated_clone_failure_fatal
    (h : Host) (args : Args) (w : World) (s : State) (rc : Z) (out err : string)
    (fs : gmap string Z) :
  check_dependencies (start args w) = Ret tt s ->
  (path_exists (world s) (repo_dir (self s)) = true ->
   subprocess_run h git_pull (Some (repo_dir (self s))) (world s)
   = (Completed rc out err, fs) ->
   let s' := ran s (EvRun git_pull (Some (repo_dir (self s))) false false
                      (Completed rc out err)) fs in
   clone_or_update h s = Ret tt s'
   /\ clone_repository h s = resolve_build_root h s'
   /\ build_and_run h (start args w)
      = (resolve_build_root h ;;; build_builder_image h ;;; compile_node h ;;;
         binary_path <~ verify_binary h ;;
         create_work_directory h ;;; run_node h binary_path) s')
  /\ (path_exists (world s) (repo_dir (self s)) = false ->
      subprocess_run h (git_clone (self s)) None (world s) = (Completed rc out err, fs) ->
      rc <> 0 ->
      let s' := ran s (EvRun (git_clone (self s)) None true false
                         (Completed rc out err)) fs in
      clone_repository h s = SysExit rc s'
      /\ build_and_run h (start args w) = SysExit rc s'
      /\ main h args w = (Exited rc, s')).
Proof.
  intros Hdeps. split.
  - intros Hdir Hrun s'.
    pose proof (clone_or_update_pull h s rc out err fs Hdir Hrun) as Hup.
    fold s' in Hup. split; [exact Hup|]. split.
    + unfold clone_repository. now rewrite (bind_Ret _ _ _ _ _ Hup).
    + unfold build_and_run. rewrite (bind_Ret _ _ _ _ _ Hdeps).
      unfold clone_repository. rewrite bind_assoc.
      now rewrite (bind_Ret _ _ _ _ _ Hup).
  - intros Hdir Hrun Hrc s'.
    pose proof (clone_or_update_clone h s rc out err fs Hdir Hrun) as Hup.
    cbn zeta in Hup. fold s' in Hup.
    destruct (Z.eqb_spec rc 0) as [->|_]; [contradiction|].
    assert (Hrepo : clone_repository h s = SysExit rc s').
    { unfold clone_repository. now rewrite (bind_SysExit _ _ _ _ _ Hup). }
    assert (Hall : build_and_run h (start args w) = SysExit rc s').
    { unfold build_and_run. rewrite (bind_Ret _ _ _ _ _ Hdeps).
      now rewrite (bind_SysExit _ _ _ _ _ Hrepo). }
    repeat split; [exact Hrepo | exact Hall |].
    unfold main. now rewrite Hall.
Qed.

Lemma pull_failure_tolerated_clone_failure_fatal_witness :
  (let h := Demo.host (Demo.failing "pull" 1) true in
   let s := final_state (check_dependencies (start (Demo.args ChoiceAuto) Demo.plain_world)) in
   clone_or_update h s
   = Ret tt (ran s (EvRun git_pull (Some (repo_dir (self s))) false false
                      (Completed 1 EmptyString "failed")) (w_files Demo.plain_world)))
  /\ (let h := Demo.host (Demo.failing "clone" 128) true in
      let s := final_state (check_dependencies (start (Demo.args ChoiceAuto) Demo.empty_world)) in
      main h (Demo.args ChoiceAuto) Demo.empty_world
      = (Exited 128,
         ran s (EvRun (git_clone (self s)) None true false
                  (Completed 128 EmptyString "failed")) (w_files Demo.empty_world))).
Proof.
  split.
  - intros h s.
    apply (proj1 (pull_failure_tolerated_clone_failure_fatal
                    h (Demo.args ChoiceAuto) Demo.plain_world s 1 EmptyString "failed"
                    (w_files Demo.plain_world) ltac:(vm_compute; reflexivity)));
      vm_compute; reflexivity.
  - intros h s.
    apply (proj2 (pull_failure_tolerated_clone_failure_fatal
                    h (Demo.args ChoiceAuto) Demo.empty_world s 128 EmptyString "failed"
                    (w_files Demo.empty_world) ltac:(vm_compute; reflexivity)));
      [vm_compute; reflexivity | vm_compute; reflexivity | lia].
Defined.

(** ** BinaryResolver *)

Lemma os_chmod_cases (h : Host) (p : Path) (mode : Z) (s : State) :
  os_chmod h p mode s
  = match w_files (world s) !! PyPath.to_str p with
    | Some _ =>
        if chmod_ok h p mode (world s) then Ret tt (chmodded s p mode)
        else Raised OSError (logged s [EvChmod p mode false])
    | None => Raised OSError (logged s [EvChmod p mode false])
    end.
Proof.
  unfold os_chmod, chmodded, logged. plumbing.
  destruct (w_files (world s) !! PyPath.to_str p); [|reflexivity].
  destruct (chmod_ok h p mode (world s)); reflexivity.
Qed.

Lemma chmodded_mode (s : State) (p : Path) (mode : Z) :
  w_files (world (chmodded s p mode)) !! PyPath.to_str p = Some mode.
Proof. cbn. apply lookup_insert_eq. Qed.

Lemma chmodded_last (s : State) (p : Path) (mode : Z) :
  last (trace (chmodded s p mode)) = Some (EvChmod p mode true).
Proof. cbn. apply last_snoc. Qed.

(** [verify_binary] in terms of its two steps: locate, then [chmod]. *)
Lemma verify_binary_unfold (h : Host) (s : State) :
  verify_binary h s
  = bind (fun s0 =>
            if path_exists (world s0) (conventional_path (self s0))
            then Ret (conventional_path (self s0)) s0
            else bind (run_command h (find_binary (self s0)) None true true)
                   (fun result =>
                      match result with
                      | Stdout text =>
                          if PyStr.truthy text then ret (PyPath.of_str text)
                          else sys_exit 1
                      | CompletedProcess _ => raise TypeError
                      end) s0)
      (fun binary_path => bind (os_chmod h binary_path 493) (fun _ => ret binary_path)) s.
Proof.
  unfold verify_binary, conventional_path, find_binary, bind at 1 2 3, get_self, get_world.
  unfold bind at 3.
  destruct (path_exists (world s) (repo_dir (self s) // binary_name (self s)));
    reflexivity.
Qed.

(** Whenever [verify_binary] returns, its last act was a successful
    [chmod 0o755] of the path it returns. *)
Lemma verify_binary_returns (h : Host) (s s' : State) (p : Path) :
  verify_binary h s = Ret p s' ->
  exists s1, w_files (world s1) !! PyPath.to_str p <> None
             /\ chmod_ok h p 493 (world s1) = true
             /\ s' = chmodded s1 p 493.
Proof.
  rewrite verify_binary_unfold. unfold bind at 1.
  match goal with |- context [match ?locate with _ => _ end] =>
    destruct locate as [q s1| | |] eqn:Hloc end; try discriminate.
  unfold bind. rewrite os_chmod_cases.
  destruct (w_files (world s1) !! PyPath.to_str q) eqn:Hq; [|discriminate].
  destruct (chmod_ok h q 493 (world s1)) eqn:Hok; [|discriminate].
  cbv [ret]. intros [= <- <-]. exists s1.
  split; [congruence | split; [exact Hok | reflexivity]].
Qed.

Lemma truthy_nonempty (text : string) : text <> EmptyString -> PyStr.truthy text = true.
Proof. destruct text; [congruence | reflexivity]. Qed.

(** [verify_binary] when something is at the conventional path. *)
Lemma verify_binary_conventional (h : Host) (s : State) :
  path_exists (world s) (conventional_path (self s)) = true ->
  verify_binary h s
  = let p := conventional_path (self s) in
    if chmod_ok h p 493 (world s) then Ret p (chmodded s p 493)
    else Raised OSError (logged s [EvChmod p 493 false]).
Proof.
  intros Hconv. rewrite verify_binary_unfold. unfold bind at 1. rewrite Hconv.
  unfold bind. rewrite os_chmod_cases. cbv zeta.
  unfold path_exists in Hconv.
  destruct (w_files (world s) !! PyPath.to_str (conventional_path (self s)));
    [|discriminate].
  destruct (chmod_ok h _ 493 (world s)); reflexivity.
Qed.

(** [verify_binary] when nothing is at the conventional path and the search
    ends with return code 0. *)
Lemma verify_binary_search (h : Host) (s : State) (out err : string) (fs : gmap string Z) :
  path_exists (world s) (conventional_path (self s)) = false ->
  subprocess_run h (find_binary (self s)) None (world s) = (Completed 0 out err, fs) ->
  verify_binary h s
  = let s1 := ran s (EvRun (find_binary (self s)) None true true (Completed 0 out err)) fs in
    let hit := PyPath.of_str (PyStr.strip out) in
    if PyStr.truthy (PyStr.strip out) then
      match fs !! PyPath.to_str hit with
      | Some _ =>
          if chmod_ok h hit 493 (world s1) then Ret hit (chmodded s1 hit 493)
          else Raised OSError (logged s1 [EvChmod hit 493 false])
      | None => Raised OSError (logged s1 [EvChmod hit 493 false])
      end
    else SysExit 1 s1.
Proof.
  intros Hconv Hrun. rewrite verify_binary_unfold. unfold bind at 1. rewrite Hconv.
  unfold bind at 1. rewrite (run_command_completed _ _ _ _ _ _ _ _ _ _ Hrun). cbn.
  destruct (PyStr.truthy (PyStr.strip out)); [|reflexivity].
  cbv [ret]. unfold bind. rewrite os_chmod_cases. cbn [world ran with_files w_files].
  destruct (fs !! PyPath.to_str (PyPath.of_str (PyStr.strip out))); [|reflexivity].
  destruct (chmod_ok h _ 493 _); reflexivity.
Qed.

(** C3. [verify_binary] looks at the conventional path first and searches
    only when nothing is there; a search that prints nothing ends the run
    with status 1.  On either route it calls [chmod 0o755] on the file it
    settles on, whatever the mode of that file was, as its last act: when
    the host lets the script change the mode, the file ends up executable by
    owner, group and others and its path is returned; when the host refuses,
    the call raises, no path is returned and the file table is as it was.
    So whenever a path is returned, the file there has mode 0o755. *)
Theorem verify_binary_resolves (h : Host) (s : State) :
  let b := self s in
  (path_exists (world s) (conventional_path b) = true ->
     let p := conventional_path b in
     (chmod_ok h p 493 (world s) = true ->
        verify_binary h s = Ret p (chmodded s p 493)
        /\ w_files (world (final_state (verify_binary h s))) !! PyPath.to_str p = Some 493
        /\ trace (final_state (verify_binary h s)) = (trace s ++ [EvChmod p 493 true])%list)
     /\ (chmod_ok h p 493 (world s) = false ->
        verify_binary h s = Raised OSError (logged s [EvChmod p 493 false])
        /\ w_files (world (final_state (verify_binary h s))) = w_files (world s)))
  /\ (path_exists (world s) (conventional_path b) = false ->
      forall out err fs,
        subprocess_run h (find_binary b) None (world s) = (Completed 0 out err, fs) ->
        let s1 := ran s (EvRun (find_binary b) None true true (Completed 0 out err)) fs in
        let hit := PyPath.of_str (PyStr.strip out) in
        (PyStr.strip out = EmptyString -> verify_binary h s = SysExit 1 s1)
        /\ (PyStr.strip out <> EmptyString ->
            fs !! PyPath.to_str hit <> None ->
            (chmod_ok h hit 493 (world s1) = true ->
               verify_binary h s = Ret hit (chmodded s1 hit 493)
               /\ w_files (world (final_state (verify_binary h s))) !! PyPath.to_str hit
                  = Some 493
               /\ trace (final_state (verify_binary h s))
                  = (trace s ++ [EvRun (find_binary b) None true true (Completed 0 out err);
                                 EvChmod hit 493 true])%list)
            /\ (chmod_ok h hit 493 (world s1) = false ->
               verify_binary h s = Raised OSError (logged s1 [EvChmod hit 493 false])
               /\ w_files (world (final_state (verify_binary h s))) = fs)))
  /\ (forall p s',
        verify_binary h s = Ret p s' ->
        w_files (world s') !! PyPath.to_str p = Some 493
        /\ last (trace s') = Some (EvChmod p 493 true)
        /\ executable_by_all 493 = true).
Proof.
  intros b. subst b. split; [|split].
  - intros Hconv p. subst p. rewrite (verify_binary_conventional h s Hconv). cbv zeta.
    split; intros ->; cbn [final_state].
    + split; [reflexivity|]. split; [apply chmodded_mode | reflexivity].
    + split; reflexivity.
  - intros Hconv out err fs Hrun s1 hit.
    rewrite (verify_binary_search h s out err fs Hconv Hrun). cbv zeta.
    fold s1 hit. split.
    + intros ->. reflexivity.
    + intros Hout Hhit. rewrite (truthy_nonempty _ Hout).
      destruct (fs !! PyPath.to_str hit); [|contradiction].
      split; intros ->; cbn [final_state].
      * split; [reflexivity|]. split; [apply chmodded_mode|].
        cbn. now rewrite <- app_assoc.
      * split; reflexivity.
  - intros p s' Hret. destruct (verify_binary_returns h s s' p Hret) as (s1 & _ & _ & ->).
    split; [apply chmodded_mode|]. split; [apply chmodded_last | reflexivity].
Qed.

Lemma verify_binary_resolves_witness :
  (let h := Demo.host Demo.all_succeed true in
   let s := Demo.state_of (Demo.builder "auto") Demo.plain_world in
   verify_binary h s
   = Ret (conventional_path (self s)) (chmodded s (conventional_path (self s)) 493)
   /\ w_files (world (final_state (verify_binary h s))) !! "/opt/amadeus/amadeusd"
      = Some 493)
  /\ (let out := "/opt/amadeus/_build/amadeusd
" in
      let h := Demo.host (Demo.find_prints out) true in
      let s := Demo.state_of (Demo.builder "auto") Demo.nested_binary_world in
      let s1 := ran s (EvRun (find_binary (self s)) None true true
                         (Completed 0 out EmptyString)) (w_files Demo.nested_binary_world) in
      verify_binary h s
      = Ret (PyPath.of_str (PyStr.strip out))
          (chmodded s1 (PyPath.of_str (PyStr.strip out)) 493))
  /\ (let h := Scenario.foreign_files (Demo.host Demo.all_succeed true) in
      let s := Demo.state_of (Demo.builder "auto") Demo.plain_world in
      verify_binary h s
      = Raised OSError (logged s [EvChmod (conventional_path (self s)) 493 false])
      /\ w_files (world (final_state (verify_binary h s))) !! "/opt/amadeus/amadeusd"
         = Some 420).
Proof.
  split; [|split].
  - intros h s.
    destruct (proj1 (proj1 (verify_binary_resolves h s) ltac:(vm_compute; reflexivity))
                ltac:(vm_compute; reflexivity)) as (Hret & Hmode & _).
    split; [exact Hret | exact Hmode].
  - intros out h s s1.
    apply (proj1 (proj2 (proj1 (proj2 (verify_binary_resolves h s))
                           ltac:(vm_compute; reflexivity)
                           out EmptyString (w_files Demo.nested_binary_world)
                           ltac:(vm_compute; reflexivity))
                    ltac:(vm_compute; discriminate) ltac:(vm_compute; discriminate))
             ltac:(vm_compute; reflexivity)).
  - intros h s.
    destruct (proj2 (proj1 (verify_binary_resolves h s) ltac:(vm_compute; reflexivity))
                ltac:(vm_compute; reflexivity)) as (Hret & Hfiles).
    split; [exact Hret|]. rewrite Hfiles. vm_compute. reflexivity.
Defined.

(** C8. When the search prints two matches, the path [verify_binary]
    settles on is not the first match: it is the text of both lines taken
    as one path.  No such file exists, [chmod] fails on it, and the run
    ends with status 1 although the first match is there. *)
Theorem fallback_search_two_matches :
  let h := Demo.host (Demo.find_prints Demo.two_matches) true in
  let run := main h (Demo.args ChoiceAuto) Demo.two_binaries_world in
  let first_match := PyPath.of_str (first_line Demo.two_matches) in
  let settled := PyPath.of_str (PyStr.strip Demo.two_matches) in
  path_exists Demo.two_binaries_world (conventional_path (Demo.builder "auto")) = false
  /\ first_match = PyPath.of_str "/opt/amadeus/a/amadeusd"
  /\ path_exists Demo.two_binaries_world first_match = true
  /\ last (trace (snd run)) = Some (EvChmod settled 493 false)
  /\ settled <> first_match
  /\ fst run = Exited 1.
Proof.
  vm_compute. repeat split; try reflexivity. discriminate.
Qed.

(** ** What no stage touches *)

Lemma keeps_bind {A B} (R : State -> State -> Prop) (m : M A) (k : A -> M B) :
  (forall s1 s2 s3, R s1 s2 -> R s2 s3 -> R s1 s3) ->
  keeps R m -> (forall a, keeps R (k a)) -> keeps R (bind m k).
Proof.
  intros Htrans Hm Hk s. specialize (Hm s). unfold bind.
  destruct (m s) as [a s1|c s1|e s1|p a e s1]; cbn in *; try exact Hm.
  exact (Htrans _ _ _ Hm (Hk a s1)).
Qed.

Lemma orderly_trans b environ s1 s2 s3 :
  orderly b environ s1 s2 -> orderly b environ s2 s3 -> orderly b environ s1 s3.
Proof.
  unfold orderly, config_kept, process_kept.
  intros ((Ca & Cb & Cc) & (Pa & Pb) & L1) ((Ca' & Cb' & Cc') & (Pa' & Pb') & L2).
  split; [|split].
  - repeat split; congruence.
  - split; congruence.
  - intros Hs. apply L2, L1, Hs.
Qed.

Lemma Forall_snoc_benign {A} (P : A -> Prop) (l : list A) (x : A) :
  Forall P l -> P x -> Forall P (l ++ [x]).
Proof. intros Hl Hx. apply Forall_app. split; [exact Hl | now constructor]. Qed.

(** Closes the goal [orderly b environ s s'] when [s'] is [s] with another
    trace, file table, runtime command or build root. *)
Ltac orderly_step :=
  unfold orderly, config_kept, process_kept, launches_shaped; cbn;
  split; [repeat split | split; [split; reflexivity |]];
  intros (? & ? & ? & ?); split; [assumption | split; [assumption | split; [assumption |]]];
  rewrite ?Forall_app; repeat split; try assumption;
  repeat (constructor; try exact I).

Lemma run_command_orderly (h : Host) b environ cmd cwd check capture :
  keeps (orderly b environ) (run_command h cmd cwd check capture).
Proof.
  intros s. unfold run_command. plumbing.
  destruct (fst (subprocess_run h cmd cwd (world s))) as [rc out err| |];
    [destruct (check && negb (rc =? 0)%Z); [|destruct capture]| |];
    orderly_step.
Qed.

Lemma check_command_exists_orderly b environ c :
  keeps (orderly b environ) (check_command_exists c).
Proof. intros s. unfold check_command_exists. plumbing. orderly_step. Qed.

(** Runs a stage symbolically: unfolds it down to the host's answers and
    splits on each of them. *)
Ltac deepest x :=
  match x with
  | context [match ?y with _ => _ end] => deepest y
  | _ => x
  end.

Ltac split_run :=
  repeat (match goal with
          | |- context [match ?x with _ => _ end] =>
              let y := deepest x in destruct y
          end; cbn [final_state self world trace fst snd negb andb]).

Ltac unfold_stage :=
  unfold check_dependencies, clone_repository;
  cbn [missing_among];
  unfold detect_container_runtime,
    clone_or_update, resolve_build_root, build_builder_image, compile_node,
    verify_binary, create_work_directory, run_node, os_execve, os_chmod,
    run_command, check_command_exists;
  plumbing.

Lemma check_dependencies_orderly b environ :
  keeps (orderly b environ) check_dependencies.
Proof. intros s. unfold_stage. split_run; orderly_step. Qed.

Lemma clone_repository_orderly (h : Host) b environ :
  keeps (orderly b environ) (clone_repository h).
Proof. intros s. unfold_stage. split_run; orderly_step. Qed.

Lemma build_builder_image_orderly (h : Host) b environ :
  keeps (orderly b environ) (build_builder_image h).
Proof. intros s. unfold_stage. split_run; orderly_step. Qed.

Lemma compile_node_orderly (h : Host) b environ :
  keeps (orderly b environ) (compile_node h).
Proof. intros s. unfold_stage. split_run; orderly_step. Qed.

Lemma verify_binary_orderly (h : Host) b environ :
  keeps (orderly b environ) (verify_binary h).
Proof. intros s. unfold_stage. split_run; orderly_step. Qed.

Lemma create_work_directory_orderly (h : Host) b environ :
  keeps (orderly b environ) (create_work_directory h).
Proof. intros s. unfold_stage. split_run; orderly_step. Qed.

Lemma node_env_depends (b b' : AmadeusNodeBuilder) (environ : gmap string string) :
  port b' = port b -> workdir b' = workdir b -> node_env b' environ = node_env b environ.
Proof. intros Hp Hw. unfold node_env. now rewrite Hp, Hw. Qed.

Lemma run_node_orderly (h : Host) b environ (binary_path : Path) :
  keeps (orderly b environ) (run_node h binary_path).
Proof.
  intros s. unfold_stage.
  destruct (execve_ok h _ _ _ (world s)); cbn;
    (split; [repeat split | split; [split; reflexivity |]]);
    intros (Hp & Hw & He & Htr); cbn;
    (split; [assumption | split; [assumption | split; [assumption |]]]);
    (apply Forall_snoc_benign; [assumption |]);
    (split; [reflexivity |]);
    rewrite He; now apply node_env_depends.
Qed.

Lemma build_and_run_orderly (h : Host) b environ :
  keeps (orderly b environ) (build_and_run h).
Proof.
  unfold build_and_run.
  apply keeps_bind; [apply orderly_trans | apply check_dependencies_orderly | intros _].
  apply keeps_bind; [apply orderly_trans | apply clone_repository_orderly | intros _].
  apply keeps_bind; [apply orderly_trans | apply build_builder_image_orderly | intros _].
  apply keeps_bind; [apply orderly_trans | apply compile_node_orderly | intros _].
  apply keeps_bind; [apply orderly_trans | apply verify_binary_orderly | intros p].
  apply keeps_bind; [apply orderly_trans | apply create_work_directory_orderly | intros _].
  apply run_node_orderly.
Qed.

Lemma final_state_main (h : Host) (args : Args) (w : World) :
  snd (main h args w) = final_state (build_and_run h (start args w)).
Proof. unfold main. destruct (build_and_run h (start args w)); reflexivity. Qed.

Lemma main_orderly (h : Host) (args : Args) (w : World) :
  orderly (self (start args w)) (w_environ w) (start args w) (snd (main h args w)).
Proof. rewrite final_state_main. apply build_and_run_orderly. Qed.

Lemma main_launches_shaped (h : Host) (args : Args) (w : World) :
  launches_shaped (self (start args w)) (w_environ w) (snd (main h args w)).
Proof.
  apply (main_orderly h args w). repeat split. constructor.
Qed.

(** Only [run_node] replaces the process; when it does, the call is the last
    event of the run. *)
Lemma records_launch_bind {A B} (m : M A) (k : A -> M B) :
  records_launch m -> (forall a, records_launch (k a)) -> records_launch (bind m k).
Proof.
  intros Hm Hk s path argv env s'. unfold bind.
  destruct (m s) as [a s1|c s1|e s1|p a e s1] eqn:E; try discriminate.
  - apply Hk.
  - intros [= <- <- <- <-]. now apply (Hm s).
Qed.

Ltac never_launches :=
  intros s path argv env s'; unfold_stage; split_run; discriminate.

Lemma build_and_run_records_launch (h : Host) : records_launch (build_and_run h).
Proof.
  unfold build_and_run.
  do 6 (apply records_launch_bind; [never_launches | intros ?]).
  intros s path argv env s'. unfold_stage.
  destruct (execve_ok h _ _ _ (world s)); [|discriminate].
  intros [= <- <- <- <-]. cbn. apply last_snoc.
Qed.

Lemma main_launched (h : Host) (args : Args) (w : World) path argv env :
  fst (main h args w) = Launched path argv env ->
  last (trace (snd (main h args w))) = Some (EvExecve path argv env true).
Proof.
  unfold main.
  destruct (build_and_run h (start args w)) as [a s1|c s1|e s1|p a e s1] eqn:E;
    cbn; try discriminate.
  - destruct (is_Exception e); discriminate.
  - intros [= <- <- <-]. exact (build_and_run_records_launch h _ _ _ _ _ E).
Qed.

(** ** ProcessLauncher *)

Lemma node_env_lookup (b : AmadeusNodeBuilder) (environ : gmap string string) :
  node_env b environ !! "TESTNET" = Some "true"
  /\ node_env b environ !! "WORKFOLDER" = Some (workdir b)
  /\ node_env b environ !! "HTTP_IPV4" = Some "127.0.0.1"
  /\ node_env b environ !! "HTTP_PORT" = Some (PyStr.of_int (port b))
  /\ (forall k, k <> "TESTNET" -> k <> "WORKFOLDER" -> k <> "HTTP_IPV4" ->
                k <> "HTTP_PORT" -> node_env b environ !! k = environ !! k).
Proof.
  unfold node_env, dict_update. cbn [fold_left fst snd].
  repeat split.
  - now rewrite !lookup_insert_ne, lookup_insert_eq by discriminate.
  - now rewrite !lookup_insert_ne, lookup_insert_eq by discriminate.
  - now rewrite !lookup_insert_ne, lookup_insert_eq by discriminate.
  - now rewrite lookup_insert_eq.
  - intros k H1 H2 H3 H4. now rewrite !lookup_insert_ne by congruence.
Qed.

Lemma main_execve_shape (h : Host) (args : Args) (w : World) path argv env :
  fst (main h args w) = Launched path argv env
  \/ (exists ok, In (EvExecve path argv env ok) (trace (snd (main h args w)))) ->
  argv = [path] /\ env = node_env (self (start args w)) (w_environ w).
Proof.
  intros Hcall.
  assert (exists ok, In (EvExecve path argv env ok) (trace (snd (main h args w))))
    as [ok Hin].
  { destruct Hcall as [Hl|Hex]; [|exact Hex]. exists true.
    apply main_launched in Hl.
    destruct (trace (snd (main h args w))) as [|e tr] using rev_ind; [discriminate|].
    rewrite last_snoc in Hl. injection Hl as ->. apply in_or_app. right. now left. }
  destruct (main_launches_shaped h args w) as (_ & _ & _ & Hall).
  rewrite Forall_forall in Hall. apply list_elem_of_In in Hin.
  exact (Hall _ Hin).
Qed.

(** C1. Whenever a run of [main] calls [os.execve], and so whenever it
    launches the binary, the environment it hands over holds [TESTNET=true],
    [WORKFOLDER] set to the configured work directory, [HTTP_IPV4=127.0.0.1]
    and [HTTP_PORT] set to the decimal text of the configured port, whatever
    the caller's environment held under those names; under every other name
    it holds exactly what the caller's environment held. *)
Theorem launch_environment (h : Host) (args : Args) (w : World)
    (path : string) (argv : list string) (env : gmap string string) :
  fst (main h args w) = Launched path argv env
  \/ (exists ok, In (EvExecve path argv env ok) (trace (snd (main h args w)))) ->
  env = <["HTTP_PORT" := PyStr.of_int (arg_port args)]>
          (<["HTTP_IPV4" := "127.0.0.1"]>
             (<["WORKFOLDER" := arg_workdir args]>
                (<["TESTNET" := "true"]> (w_environ w))))
  /\ env !! "TESTNET" = Some "true"
  /\ env !! "WORKFOLDER" = Some (arg_workdir args)
  /\ env !! "HTTP_IPV4" = Some "127.0.0.1"
  /\ env !! "HTTP_PORT" = Some (PyStr.of_int (arg_port args))
  /\ (forall k, k <> "TESTNET" -> k <> "WORKFOLDER" -> k <> "HTTP_IPV4" ->
                k <> "HTTP_PORT" -> env !! k = w_environ w !! k).
Proof.
  intros Hcall. destruct (main_execve_shape h args w path argv env Hcall) as [_ ->].
  split; [reflexivity|].
  exact (node_env_lookup (self (start args w)) (w_environ w)).
Qed.

Lemma launch_environment_witness :
  let h := Demo.host Demo.all_succeed true in
  let env := node_env (Demo.builder "auto") (w_environ Demo.plain_world) in
  fst (main h (Demo.args ChoiceAuto) Demo.plain_world)
  = Launched "/opt/amadeus/amadeusd" ["/opt/amadeus/amadeusd"] env
  /\ w_environ Demo.plain_world !! "HTTP_PORT" = Some "1234"
  /\ env !! "HTTP_PORT" = Some "9090"
  /\ env !! "WORKFOLDER" = Some "/data/x"
  /\ env !! "PATH" = w_environ Demo.plain_world !! "PATH".
Proof.
  intros h env.
  assert (fst (main h (Demo.args ChoiceAuto) Demo.plain_world)
          = Launched "/opt/amadeus/amadeusd" ["/opt/amadeus/amadeusd"] env) as Hrun
    by (vm_compute; reflexivity).
  destruct (launch_environment h (Demo.args ChoiceAuto) Demo.plain_world _ _ _ (or_introl Hrun))
    as (_ & _ & Hw & _ & Hp & Hrest).
  split; [exact Hrun|]. split; [vm_compute; reflexivity|].
  split; [exact Hp|]. split; [exact Hw|].
  apply Hrest; discriminate.
Defined.

Lemma bind_Replaced_inv {A B} (m : M A) (k : A -> M B) s path argv env s' :
  never_replaces m ->
  bind m k s = Replaced path argv env s' ->
  exists a s1, m s = Ret a s1 /\ k a s1 = Replaced path argv env s'.
Proof.
  intros Hm. unfold bind.
  destruct (m s) as [a s1|c s1|e s1|p a e s1] eqn:E; try discriminate.
  - intros Hk. now exists a, s1.
  - exfalso. exact (Hm _ _ _ _ _ E).
Qed.

Ltac no_replace := intros s path argv env s'; unfold_stage; split_run; discriminate.

Lemma check_dependencies_never_replaces : never_replaces check_dependencies.
Proof. no_replace. Qed.

Lemma clone_repository_never_replaces (h : Host) : never_replaces (clone_repository h).
Proof. no_replace. Qed.

Lemma build_builder_image_never_replaces (h : Host) :
  never_replaces (build_builder_image h).
Proof. no_replace. Qed.

Lemma compile_node_never_replaces (h : Host) : never_replaces (compile_node h).
Proof. no_replace. Qed.

Lemma verify_binary_never_replaces (h : Host) : never_replaces (verify_binary h).
Proof. no_replace. Qed.

Lemma create_work_directory_never_replaces (h : Host) :
  never_replaces (create_work_directory h).
Proof. no_replace. Qed.

(** A run that ends in a launch went through every stage in order. *)
Lemma build_and_run_launch_inv (h : Host) s0 path argv env sf :
  build_and_run h s0 = Replaced path argv env sf ->
  exists s1 s2 s3 s4 p s5 s6,
    check_dependencies s0 = Ret tt s1
    /\ clone_repository h s1 = Ret tt s2
    /\ build_builder_image h s2 = Ret tt s3
    /\ compile_node h s3 = Ret tt s4
    /\ verify_binary h s4 = Ret p s5
    /\ create_work_directory h s5 = Ret tt s6
    /\ run_node h p s6 = Replaced path argv env sf.
Proof.
  unfold build_and_run. intros H.
  apply (bind_Replaced_inv _ _ _ _ _ _ _ check_dependencies_never_replaces) in H
    as ([] & s1 & H1 & H).
  apply (bind_Replaced_inv _ _ _ _ _ _ _ (clone_repository_never_replaces h)) in H
    as ([] & s2 & H2 & H).
  apply (bind_Replaced_inv _ _ _ _ _ _ _ (build_builder_image_never_replaces h)) in H
    as ([] & s3 & H3 & H).
  apply (bind_Replaced_inv _ _ _ _ _ _ _ (compile_node_never_replaces h)) in H
    as ([] & s4 & H4 & H).
  apply (bind_Replaced_inv _ _ _ _ _ _ _ (verify_binary_never_replaces h)) in H
    as (p & s5 & H5 & H).
  apply (bind_Replaced_inv _ _ _ _ _ _ _ (create_work_directory_never_replaces h)) in H
    as ([] & s6 & H6 & H).
  exists s1, s2, s3, s4, p, s5, s6. repeat split; assumption.
Qed.

Lemma run_node_replaced (h : Host) (p : Path) s path argv env s' :
  run_node h p s = Replaced path argv env s' ->
  path = PyPath.to_str p /\ argv = [PyPath.to_str p].
Proof.
  unfold_stage. destruct (execve_ok h _ _ _ (world s)); [|discriminate].
  intros [= <- <- <- <-]. split; reflexivity.
Qed.

Lemma main_Launched_inv (h : Host) (args : Args) (w : World) path argv env :
  fst (main h args w) = Launched path argv env ->
  exists sf, build_and_run h (start args w) = Replaced path argv env sf.
Proof.
  unfold main.
  destruct (build_and_run h (start args w)) as [a s1|c s1|e s1|p a e s1];
    cbn; try discriminate.
  - destruct (is_Exception e); discriminate.
  - intros [= <- <- <-]. now exists s1.
Qed.

(** C10. The argument vector of every [os.execve] call a run of [main]
    makes has one element, the program path itself; and when the run
    launches the binary, that path is the text of the path [verify_binary]
    returned.  Nothing of the script's own command line is passed on. *)
Theorem launch_argv (h : Host) (args : Args) (w : World)
    (path : string) (argv : list string) (env : gmap string string) :
  ((exists ok, In (EvExecve path argv env ok) (trace (snd (main h args w)))) ->
   argv = [path] /\ length argv = 1%nat)
  /\ (fst (main h args w) = Launched path argv env ->
      argv = [path]
      /\ length argv = 1%nat
      /\ exists s p s',
           verify_binary h s = Ret p s' /\ path = PyPath.to_str p).
Proof.
  split.
  - intros Hev.
    destruct (main_execve_shape h args w path argv env (or_intror Hev)) as [-> _].
    split; reflexivity.
  - intros Hl.
    destruct (main_execve_shape h args w path argv env (or_introl Hl)) as [-> _].
    split; [reflexivity|]. split; [reflexivity|].
    destruct (main_Launched_inv h args w _ _ _ Hl) as [sf Hrun].
    destruct (build_and_run_launch_inv h _ _ _ _ _ Hrun)
      as (s1 & s2 & s3 & s4 & p & s5 & s6 & _ & _ & _ & _ & Hv & _ & Hn).
    exists s4, p, s5. split; [exact Hv|].
    exact (proj1 (run_node_replaced h p s6 _ _ _ _ Hn)).
Qed.

Lemma launch_argv_witness :
  let h := Demo.host Demo.all_succeed true in
  let env := node_env (Demo.builder "podman") (w_environ Demo.ex_world) in
  fst (main h (Demo.args ChoicePodman) Demo.ex_world)
  = Launched "/opt/amadeus/ex/amadeusd" ["/opt/amadeus/ex/amadeusd"] env
  /\ length ["/opt/amadeus/ex/amadeusd"] = 1%nat.
Proof.
  intros h env.
  assert (fst (main h (Demo.args ChoicePodman) Demo.ex_world)
          = Launched "/opt/amadeus/ex/amadeusd" ["/opt/amadeus/ex/amadeusd"] env) as Hrun
    by (vm_compute; reflexivity).
  split; [exact Hrun|].
  exact (proj1 (proj2 (proj2 (launch_argv h (Demo.args ChoicePodman) Demo.ex_world _ _ _) Hrun))).
Defined.

(** ** The configuration fields *)

Ltac repo_dir_still := intros s; unfold repo_dir_kept; unfold_stage; split_run; reflexivity.

Lemma check_dependencies_repo_dir : keeps repo_dir_kept check_dependencies.
Proof. repo_dir_still. Qed.

Lemma build_builder_image_repo_dir (h : Host) : keeps repo_dir_kept (build_builder_image h).
Proof. repo_dir_still. Qed.

Lemma compile_node_repo_dir (h : Host) : keeps repo_dir_kept (compile_node h).
Proof. repo_dir_still. Qed.

Lemma verify_binary_repo_dir (h : Host) : keeps repo_dir_kept (verify_binary h).
Proof. repo_dir_still. Qed.

Lemma create_work_directory_repo_dir (h : Host) :
  keeps repo_dir_kept (create_work_directory h).
Proof. repo_dir_still. Qed.

Lemma run_node_repo_dir (h : Host) (p : Path) : keeps repo_dir_kept (run_node h p).
Proof. repo_dir_still. Qed.

Lemma clone_or_update_self (h : Host) : keeps (fun s s' => self s' = self s) (clone_or_update h).
Proof. intros s. unfold_stage. split_run; reflexivity. Qed.

(** [clone_repository] leaves [repo_dir] alone, or moves it to the [ex]
    subdirectory of the resolved checkout directory. *)
Lemma clone_repository_repo_dir (h : Host) (s : State) :
  let s' := final_state (clone_repository h s) in
  repo_dir (self s') = repo_dir (self s)
  \/ exists s1,
       clone_or_update h s = Ret tt s1
       /\ descriptor_at_root h s1 = false
       /\ descriptor_at_ex h s1 = true
       /\ repo_dir (self s') = realpath h (world s1) (repo_dir (self s)) // "ex".
Proof.
  cbv zeta. unfold clone_repository, bind.
  pose proof (clone_or_update_self h s) as Hself.
  destruct (clone_or_update h s) as [[] s1|c s1|e s1|p a e s1] eqn:Hup; cbn in Hself;
    try (left; cbn; now rewrite Hself).
  rewrite resolve_build_root_cases.
  destruct (descriptor_at_root h s1) eqn:Hroot; [left; cbn; now rewrite Hself|].
  destruct (descriptor_at_ex h s1) eqn:Hex; [|left; cbn; now rewrite Hself].
  right. exists s1. repeat split; try assumption. cbn. now rewrite Hself.
Qed.

(** C9, as the code has it. The port, the work directory and the runtime
    preference are never changed: not by any stage, from any state, and so
    not by a run of [main].  The checkout directory field is changed by no
    stage but [clone_repository], which either leaves it alone or, when the
    descriptor is under [ex] and not at the top, sets it to the [ex]
    subdirectory of the resolved checkout directory. *)
Theorem config_fields_frame (h : Host) :
  (forall args w, config_kept (start args w) (snd (main h args w)))
  /\ (forall s, config_kept s (final_state (check_dependencies s))
             /\ config_kept s (final_state (clone_repository h s))
             /\ config_kept s (final_state (build_builder_image h s))
             /\ config_kept s (final_state (compile_node h s))
             /\ config_kept s (final_state (verify_binary h s))
             /\ config_kept s (final_state (create_work_directory h s))
             /\ forall p, config_kept s (final_state (run_node h p s)))
  /\ (forall s, repo_dir_kept s (final_state (check_dependencies s))
             /\ repo_dir_kept s (final_state (build_builder_image h s))
             /\ repo_dir_kept s (final_state (compile_node h s))
             /\ repo_dir_kept s (final_state (verify_binary h s))
             /\ repo_dir_kept s (final_state (create_work_directory h s))
             /\ forall p, repo_dir_kept s (final_state (run_node h p s)))
  /\ (forall s,
        let s' := final_state (clone_repository h s) in
        repo_dir (self s') = repo_dir (self s)
        \/ exists s1,
             clone_or_update h s = Ret tt s1
             /\ descriptor_at_root h s1 = false
             /\ descriptor_at_ex h s1 = true
             /\ repo_dir (self s') = realpath h (world s1) (repo_dir (self s)) // "ex").
Proof.
  split; [|split; [|split]].
  - intros args w. exact (proj1 (main_orderly h args w)).
  - intros s. pose (b := self s). pose (environ := w_environ (world s)).
    split; [exact (proj1 (check_dependencies_orderly b environ s))|].
    split; [exact (proj1 (clone_repository_orderly h b environ s))|].
    split; [exact (proj1 (build_builder_image_orderly h b environ s))|].
    split; [exact (proj1 (compile_node_orderly h b environ s))|].
    split; [exact (proj1 (verify_binary_orderly h b environ s))|].
    split; [exact (proj1 (create_work_directory_orderly h b environ s))|].
    intros p. exact (proj1 (run_node_orderly h b environ p s)).
  - intros s.
    split; [apply check_dependencies_repo_dir|].
    split; [apply build_builder_image_repo_dir|].
    split; [apply compile_node_repo_dir|].
    split; [apply verify_binary_repo_dir|].
    split; [apply create_work_directory_repo_dir|].
    intros p. apply run_node_repo_dir.
  - intros s. apply clone_repository_repo_dir.
Qed.

(** The claim C9 as written fails: with the descriptor under [ex] only, the
    run ends with another checkout directory field than it started with. *)
Lemma checkout_directory_reassigned :
  let h := Demo.host Demo.all_succeed true in
  let s0 := start (Demo.args ChoicePodman) Demo.ex_world in
  let sf := snd (main h (Demo.args ChoicePodman) Demo.ex_world) in
  repo_dir (self s0) = PyPath.of_str "/opt/amadeus"
  /\ repo_dir (self sf) = PyPath.of_str "/opt/amadeus/ex"
  /\ ~ (repo_dir_kept s0 sf /\ config_kept s0 sf).
Proof.
  vm_compute. split; [reflexivity|]. split; [reflexivity|].
  intros [H _]. discriminate H.
Qed.

(** ** No descriptor, no image build *)

Ltac no_build_step :=
  unfold no_build_kept, image_build_invoked; cbn [final_state self world trace];
  rewrite ?existsb_app; intros ->; reflexivity.

Lemma check_dependencies_no_build : keeps no_build_kept check_dependencies.
Proof. intros s. unfold_stage. split_run; no_build_step. Qed.

Lemma clone_or_update_no_build (h : Host) : keeps no_build_kept (clone_or_update h).
Proof. intros s. unfold_stage. split_run; no_build_step. Qed.

Lemma main_without_descriptor (h : Host) (args : Args) (w : World) (s1 s2 : State) :
  check_dependencies (start args w) = Ret tt s1 ->
  clone_or_update h s1 = Ret tt s2 ->
  descriptor_at_root h s2 = false ->
  descriptor_at_ex h s2 = false ->
  main h args w = (Exited 1, s2).
Proof.
  intros Hdeps Hup Hroot Hex.
  assert (Hnone : clone_repository h s1 = SysExit 1 s2).
  { unfold clone_repository.
    now rewrite (bind_Ret _ _ _ _ _ Hup), resolve_build_root_cases, Hroot, Hex. }
  unfold main, build_and_run.
  now rewrite (bind_Ret _ _ _ _ _ Hdeps), (bind_SysExit _ _ _ _ _ Hnone).
Qed.

(** C6. When the checkout step has returned and the descriptor is neither
    at the top of the resolved checkout directory nor under its [ex]
    subdirectory, the run ends there with status 1 and its trace holds no
    image build.  Put the other way round: a run whose trace holds an image
    build passed the checkout step and found the descriptor in one of the
    two places. *)
Theorem no_descriptor_no_image_build (h : Host) (args : Args) (w : World) :
  (forall s1 s2,
     check_dependencies (start args w) = Ret tt s1 ->
     clone_or_update h s1 = Ret tt s2 ->
     descriptor_at_root h s2 = false ->
     descriptor_at_ex h s2 = false ->
     main h args w = (Exited 1, s2)
     /\ image_build_invoked (trace s2) = false)
  /\ (image_build_invoked (trace (snd (main h args w))) = true ->
      exists s1 s2,
        check_dependencies (start args w) = Ret tt s1
        /\ clone_or_update h s1 = Ret tt s2
        /\ (descriptor_at_root h s2 = true \/ descriptor_at_ex h s2 = true)).
Proof.
  assert (Hfatal : forall s1 s2,
             check_dependencies (start args w) = Ret tt s1 ->
             clone_or_update h s1 = Ret tt s2 ->
             descriptor_at_root h s2 = false ->
             descriptor_at_ex h s2 = false ->
             main h args w = (Exited 1, s2)
             /\ image_build_invoked (trace s2) = false).
  { intros s1 s2 Hdeps Hup Hroot Hex. split.
    - now apply main_without_descriptor with (s1 := s1).
    - pose proof (check_dependencies_no_build (start args w)) as H1.
      pose proof (clone_or_update_no_build h s1) as H2.
      rewrite Hdeps in H1. rewrite Hup in H2. apply H2, H1. reflexivity. }
  split; [exact Hfatal|].
  intros Hbuild.
  pose proof (check_dependencies_no_build (start args w)) as H1.
  rewrite final_state_main in Hbuild. unfold build_and_run, bind at 1 in Hbuild.
  destruct (check_dependencies (start args w)) as [[] s1|c s1|e s1|p a e s1] eqn:Hdeps;
    cbn in H1, Hbuild; try (rewrite H1 in Hbuild by reflexivity; discriminate).
  pose proof (clone_or_update_no_build h s1) as H2.
  unfold clone_repository in Hbuild. rewrite bind_assoc in Hbuild.
  unfold bind at 1 in Hbuild.
  destruct (clone_or_update h s1) as [[] s2|c s2|e s2|p a e s2] eqn:Hup;
    cbn in H2, Hbuild; try (rewrite H2 in Hbuild by (apply H1; reflexivity); discriminate).
  exists s1, s2. split; [reflexivity|]. split; [exact Hup|].
  destruct (descriptor_at_root h s2) eqn:Hroot; [now left|].
  destruct (descriptor_at_ex h s2) eqn:Hex; [now right|].
  exfalso.
  destruct (Hfatal s1 s2 eq_refl Hup Hroot Hex) as [_ Hnone].
  unfold bind at 1 in Hbuild. rewrite resolve_build_root_cases, Hroot, Hex in Hbuild.
  cbn in Hbuild. rewrite Hnone in Hbuild. discriminate.
Qed.

Lemma no_descriptor_no_image_build_witness :
  let h := Demo.host Demo.all_succeed true in
  let args := Demo.args ChoiceAuto in
  let s1 := final_state (check_dependencies (start args Demo.bare_world)) in
  let s2 := final_state (clone_or_update h s1) in
  main h args Demo.bare_world = (Exited 1, s2)
  /\ image_build_invoked (trace s2) = false.
Proof.
  intros h args s1 s2.
  apply (proj1 (no_descriptor_no_image_build h args Demo.bare_world) s1 s2);
    vm_compute; reflexivity.
Defined.

(** ** Exit statuses *)

Lemma classify_app_clean (evs1 evs2 : list Event) :
  classify evs1 = Some None -> classify (evs1 ++ evs2) = classify evs2.
Proof.
  induction evs1 as [|e rest IH]; cbn; [reflexivity|].
  destruct (verdict e); [destruct rest; discriminate | exact IH].
Qed.

Lemma classify_In (evs : list Event) (e : Event) (c : Z) :
  In e evs -> verdict e = Some c ->
  classify evs = None \/ classify evs = Some (Some c).
Proof.
  induction evs as [|e0 rest IH]; cbn; [contradiction|].
  intros [->|Hin] Hv.
  - rewrite Hv. destruct rest; [now right | now left].
  - destruct (verdict e0); [|now apply IH].
    destruct rest; [contradiction | now left].
Qed.

Lemma accounted_bind {A B} (m : M A) (k : A -> M B) :
  accounted m -> (forall a, accounted (k a)) -> accounted (bind m k).
Proof.
  intros Hm Hk s. destruct (Hm s) as (evs1 & Htr1 & Hc1). unfold bind.
  destruct (m s) as [a s1|c s1|e s1|p a e s1]; cbn in *;
    try (exists evs1; split; [exact Htr1 | exact Hc1]).
  destruct (classify evs1) as [[c|]|] eqn:Hcl; [discriminate | | contradiction].
  destruct (Hk a s1) as (evs2 & Htr2 & Hc2).
  exists (evs1 ++ evs2)%list. split.
  - rewrite Htr2, Htr1. now rewrite app_assoc.
  - now rewrite (classify_app_clean _ _ Hcl).
Qed.

Ltac split_run_eqn :=
  repeat (match goal with
          | |- context [match ?x with _ => _ end] =>
              let y := deepest x in destruct y eqn:?
          end; cbn [final_state self world trace fst snd negb andb]).

Ltac account :=
  unfold explained; cbn [final_state self world trace];
  first [ exists []; split; [symmetry; apply app_nil_r |]
        | eexists; split; [rewrite <- ?app_assoc; reflexivity |] ];
  cbn [app classify verdict status_of is_Exception andb negb];
  repeat match goal with
         | H : _ = true |- _ => rewrite ?H; clear H
         | H : _ = false |- _ => rewrite ?H; clear H
         end;
  cbn [app classify verdict status_of is_Exception andb negb];
  auto.

Lemma check_dependencies_accounted : accounted check_dependencies.
Proof. intros s. unfold_stage. split_run_eqn; account. Qed.

Lemma clone_repository_accounted (h : Host) : accounted (clone_repository h).
Proof. intros s. unfold_stage. split_run_eqn; account. Qed.

Lemma build_builder_image_accounted (h : Host) : accounted (build_builder_image h).
Proof. intros s. unfold_stage. split_run_eqn; account. Qed.

Lemma compile_node_accounted (h : Host) : accounted (compile_node h).
Proof. intros s. unfold_stage. split_run_eqn; account. Qed.

Lemma verify_binary_accounted (h : Host) : accounted (verify_binary h).
Proof. intros s. unfold_stage. split_run_eqn; account. Qed.

Lemma create_work_directory_accounted (h : Host) : accounted (create_work_directory h).
Proof. intros s. unfold_stage. split_run_eqn; account. Qed.

Lemma run_node_accounted (h : Host) (p : Path) : accounted (run_node h p).
Proof. intros s. unfold_stage. split_run_eqn; account. Qed.

Lemma build_and_run_accounted (h : Host) : accounted (build_and_run h).
Proof.
  unfold build_and_run.
  apply accounted_bind; [apply check_dependencies_accounted | intros _].
  apply accounted_bind; [apply clone_repository_accounted | intros _].
  apply accounted_bind; [apply build_builder_image_accounted | intros _].
  apply accounted_bind; [apply compile_node_accounted | intros _].
  apply accounted_bind; [apply verify_binary_accounted | intros p].
  apply accounted_bind; [apply create_work_directory_accounted | intros _].
  apply run_node_accounted.
Qed.

Lemma main_status (h : Host) (args : Args) (w : World) (c : Z) :
  status_of (build_and_run h (start args w)) = Some c -> fst (main h args w) = Exited c.
Proof.
  unfold main. destruct (build_and_run h (start args w)) as [a s|c' s|e s|p a e s]; cbn;
    try discriminate.
  - now intros [= ->].
  - destruct (is_Exception e); now intros [= <-].
Qed.

(** An effect that forces an exit is the run's last, and the run ends
    with the code it calls for. *)
Lemma main_verdict (h : Host) (args : Args) (w : World) (e : Event) (c : Z) :
  In e (trace (snd (main h args w))) -> verdict e = Some c ->
  fst (main h args w) = Exited c.
Proof.
  intros Hin Hv. rewrite final_state_main in Hin.
  destruct (build_and_run_accounted h (start args w)) as (evs & Htr & Hc).
  cbn [start trace app] in Htr. rewrite Htr in Hin.
  destruct (classify_In evs e c Hin Hv) as [Hcl|Hcl]; rewrite Hcl in Hc; [contradiction|].
  now apply main_status.
Qed.

(** The status of the process for the codes a child can be reported
    with: the code itself from 0 to 255, and [256 - n] for [-n], a child
    killed by signal [n]. *)
Lemma exit_status_byte (code : Z) : 0 <= code < 256 -> exit_status code = code.
Proof.
  intros Hc. unfold exit_status.
  assert ((- 2 ^ 63 <=? code)%Z = true) as -> by (apply Z.leb_le; lia).
  assert ((code <? 2 ^ 63)%Z = true) as -> by (apply Z.ltb_lt; lia).
  cbn [andb].
  change 255 with (Z.ones 8). rewrite Z.land_ones by lia.
  apply Z.mod_small. change (2 ^ 8) with 256. lia.
Qed.

Lemma exit_status_signal (code : Z) : -256 < code < 0 -> exit_status code = 256 + code.
Proof.
  intros Hc. unfold exit_status.
  assert ((- 2 ^ 63 <=? code)%Z = true) as -> by (apply Z.leb_le; lia).
  assert ((code <? 2 ^ 63)%Z = true) as -> by (apply Z.ltb_lt; lia).
  cbn [andb].
  change 255 with (Z.ones 8). rewrite Z.land_ones by lia. change (2 ^ 8) with 256.
  symmetry. apply (Z.mod_unique_pos code 256 (-1)); lia.
Qed.

Lemma main_process_status (h : Host) (args : Args) (w : World) (c : Z) :
  fst (main h args w) = Exited c ->
  fst (main h args w) = Exited c
  /\ process_status (fst (main h args w)) = Some (exit_status c).
Proof. intros H. split; [exact H|]. now rewrite H. Qed.

(** C7, as the code has it. A command run with [check] that returns
    non-zero ends the run: the script hands its return code to [sys.exit],
    and the status of the process is that code as the operating system
    keeps it, the code itself from 1 to 255 and [256 - n] for a command
    killed by signal [n].  [git pull], the one command run without [check],
    does not end the run, whatever it returns: the pipeline goes on with the
    build root.  An interrupt ends the run with status 0.  A failed launch,
    and any other operating-system error, ends it with status 1; so do a
    missing build descriptor, at the checkout step or at the image
    builder's own look, and a search that finds no binary. *)
Theorem exit_statuses (h : Host) (args : Args) (w : World) :
  let run := main h args w in
  let tr := trace (snd run) in
  let status := process_status (fst run) in
  (forall cmd cwd capture rc out err,
     In (EvRun cmd cwd true capture (Completed rc out err)) tr -> rc <> 0 ->
     fst run = Exited rc
     /\ status = Some (exit_status rc)
     /\ (0 < rc < 256 -> status = Some rc)
     /\ (-256 < rc < 0 -> status = Some (256 + rc)))
  /\ (forall s1 rc out err fs,
        check_dependencies (start args w) = Ret tt s1 ->
        path_exists (world s1) (repo_dir (self s1)) = true ->
        subprocess_run h git_pull (Some (repo_dir (self s1))) (world s1)
        = (Completed rc out err, fs) ->
        let pull := EvRun git_pull (Some (repo_dir (self s1))) false false
                      (Completed rc out err) in
        clone_or_update h s1 = Ret tt (ran s1 pull fs)
        /\ build_and_run h (start args w)
           = (resolve_build_root h ;;; build_builder_image h ;;; compile_node h ;;;
              binary_path <~ verify_binary h ;;
              create_work_directory h ;;; run_node h binary_path) (ran s1 pull fs)
        /\ In pull tr
        /\ verdict pull = None)
  /\ (forall cmd cwd check capture,
        In (EvRun cmd cwd check capture Interrupted) tr ->
        fst run = Exited 0 /\ status = Some 0)
  /\ (forall path argv env,
        In (EvExecve path argv env false) tr -> fst run = Exited 1 /\ status = Some 1)
  /\ (forall cmd cwd check capture,
        In (EvRun cmd cwd check capture SpawnFailed) tr ->
        fst run = Exited 1 /\ status = Some 1)
  /\ (forall p mode,
        In (EvChmod p mode false) tr -> fst run = Exited 1 /\ status = Some 1)
  /\ (forall p, In (EvMkdir p false) tr -> fst run = Exited 1 /\ status = Some 1)
  /\ (forall s1 s2,
        check_dependencies (start args w) = Ret tt s1 ->
        clone_or_update h s1 = Ret tt s2 ->
        descriptor_at_root h s2 = false ->
        descriptor_at_ex h s2 = false ->
        fst run = Exited 1 /\ status = Some 1)
  /\ (forall s1 s2,
        check_dependencies (start args w) = Ret tt s1 ->
        clone_repository h s1 = Ret tt s2 ->
        path_exists (world s2) (repo_dir (self s2) // "build.Dockerfile") = false ->
        fst run = Exited 1 /\ status = Some 1)
  /\ (forall s1 s2 s3 s4 out err fs,
        check_dependencies (start args w) = Ret tt s1 ->
        clone_repository h s1 = Ret tt s2 ->
        build_builder_image h s2 = Ret tt s3 ->
        compile_node h s3 = Ret tt s4 ->
        path_exists (world s4) (conventional_path (self s4)) = false ->
        subprocess_run h (find_binary (self s4)) None (world s4)
        = (Completed 0 out err, fs) ->
        PyStr.strip out = EmptyString ->
        fst run = Exited 1 /\ status = Some 1).
Proof.
  cbv zeta. repeat apply conj.
  - intros cmd cwd capture rc out err Hin Hrc.
    assert (fst (main h args w) = Exited rc) as Hexit.
    { apply (main_verdict h args w _ rc Hin). cbn.
      destruct (Z.eqb_spec rc 0); [contradiction | reflexivity]. }
    rewrite Hexit. cbn [process_status].
    split; [reflexivity|]. split; [reflexivity|].
    split; intros Hr; f_equal; [apply exit_status_byte | apply exit_status_signal]; lia.
  - intros s1 rc out err fs Hdeps Hdir Hrun.
    pose proof (clone_or_update_pull h s1 rc out err fs Hdir Hrun) as Hup.
    assert (build_and_run h (start args w)
            = (resolve_build_root h ;;; build_builder_image h ;;; compile_node h ;;;
               binary_path <~ verify_binary h ;;
               create_work_directory h ;;; run_node h binary_path)
                (ran s1 (EvRun git_pull (Some (repo_dir (self s1))) false false
                           (Completed rc out err)) fs)) as Hgo.
    { unfold build_and_run. rewrite (bind_Ret _ _ _ _ _ Hdeps).
      unfold clone_repository. rewrite bind_assoc.
      now rewrite (bind_Ret _ _ _ _ _ Hup). }
    split; [exact Hup|]. split; [exact Hgo|]. split; [|reflexivity].
    rewrite final_state_main, Hgo.
    set (s2 := ran s1 _ fs).
    assert (In (EvRun git_pull (Some (repo_dir (self s1))) false false
                  (Completed rc out err)) (trace s2)) as Hin
      by (apply in_or_app; right; now left).
    match goal with |- In _ (trace (final_state (?rest s2))) =>
      assert (accounted rest) as Hacc end.
    { apply accounted_bind; [|intros _].
      - intros s0. rewrite resolve_build_root_cases.
        destruct (descriptor_at_root h s0); [account|].
        destruct (descriptor_at_ex h s0); account.
      - apply accounted_bind; [apply build_builder_image_accounted | intros _].
        apply accounted_bind; [apply compile_node_accounted | intros _].
        apply accounted_bind; [apply verify_binary_accounted | intros p].
        apply accounted_bind; [apply create_work_directory_accounted | intros _].
        apply run_node_accounted. }
    destruct (Hacc s2) as (evs & Htr & _). rewrite Htr.
    apply in_or_app. now left.
  - intros cmd cwd check capture Hin.
    now apply main_process_status, (main_verdict h args w _ 0 Hin).
  - intros path argv env Hin.
    now apply main_process_status, (main_verdict h args w _ 1 Hin).
  - intros cmd cwd check capture Hin.
    now apply main_process_status, (main_verdict h args w _ 1 Hin).
  - intros p mode Hin. now apply main_process_status, (main_verdict h args w _ 1 Hin).
  - intros p Hin. now apply main_process_status, (main_verdict h args w _ 1 Hin).
  - intros s1 s2 Hdeps Hup Hroot Hex. apply main_process_status.
    now rewrite (main_without_descriptor h args w s1 s2 Hdeps Hup Hroot Hex).
  - intros s1 s2 Hdeps Hrepo Hnone.
    apply main_process_status, main_status. unfold build_and_run.
    rewrite (bind_Ret _ _ _ _ _ Hdeps), (bind_Ret _ _ _ _ _ Hrepo).
    unfold bind at 1. unfold build_builder_image at 1. plumbing.
    now rewrite Hnone.
  - intros s1 s2 s3 s4 out err fs Hdeps Hrepo Himg Hmake Hconv Hfind Hblank.
    apply main_process_status, main_status. unfold build_and_run.
    rewrite (bind_Ret _ _ _ _ _ Hdeps), (bind_Ret _ _ _ _ _ Hrepo),
      (bind_Ret _ _ _ _ _ Himg), (bind_Ret _ _ _ _ _ Hmake).
    unfold bind at 1.
    rewrite (verify_binary_search h s4 out err fs Hconv Hfind). cbv zeta.
    now rewrite Hblank.
Qed.

Lemma exit_statuses_witness :
  (let h := Demo.host (Demo.failing "build" 7) true in
   process_status (fst (main h (Demo.args ChoiceAuto) Demo.plain_world)) = Some 7)
  /\ (let h := Demo.host (Demo.failing "build" (-9)) true in
      fst (main h (Demo.args ChoiceAuto) Demo.plain_world) = Exited (-9)
      /\ process_status (fst (main h (Demo.args ChoiceAuto) Demo.plain_world)) = Some 247)
  /\ (let h := Demo.host (Demo.failing "pull" 1) true in
      In (EvRun git_pull (Some (PyPath.of_str "/opt/amadeus")) false false
            (Completed 1 EmptyString "failed"))
         (trace (snd (main h (Demo.args ChoiceAuto) Demo.plain_world))))
  /\ (let h := Demo.host Demo.all_succeed false in
      process_status (fst (main h (Demo.args ChoiceAuto) Demo.plain_world)) = Some 1).
Proof.
  split; [|split; [|split]].
  - intros h.
    apply (proj1 (exit_statuses h (Demo.args ChoiceAuto) Demo.plain_world)
             ["docker"; "build"; "--tag"; "erlang_builder"; "-f"; "build.Dockerfile"; "."]
             (Some (PyPath.of_str "/opt/amadeus")) false 7 EmptyString "failed").
    + vm_compute. do 4 right. left. reflexivity.
    + lia.
    + lia.
  - intros h.
    destruct (proj1 (exit_statuses h (Demo.args ChoiceAuto) Demo.plain_world)
                ["docker"; "build"; "--tag"; "erlang_builder"; "-f"; "build.Dockerfile"; "."]
                (Some (PyPath.of_str "/opt/amadeus")) false (-9) EmptyString "failed")
      as (Hexit & _ & _ & Hsig).
    + vm_compute. do 4 right. left. reflexivity.
    + lia.
    + split; [exact Hexit | apply Hsig; lia].
  - intros h.
    apply (proj1 (proj2 (exit_statuses h (Demo.args ChoiceAuto) Demo.plain_world))
             (final_state (check_dependencies (start (Demo.args ChoiceAuto) Demo.plain_world)))
             1 EmptyString "failed" (w_files Demo.plain_world));
      vm_compute; reflexivity.
  - intros h.
    apply (proj1 (proj2 (proj2 (proj2 (exit_statuses h (Demo.args ChoiceAuto)
                                         Demo.plain_world))))
             "/opt/amadeus/amadeusd" ["/opt/amadeus/amadeusd"]
             (node_env (Demo.builder "auto") (w_environ Demo.plain_world))).
    vm_compute. do 8 right. left. reflexivity.
Defined.

(** The claim C7 as written fails for [git pull]: the command ends with
    return code 1, and the run goes on to launch the node instead of
    exiting with status 1. *)
Lemma unchecked_pull_failure_not_fatal :
  let h := Demo.host (Demo.failing "pull" 1) true in
  let run := main h (Demo.args ChoiceAuto) Demo.plain_world in
  In (EvRun git_pull (Some (PyPath.of_str "/opt/amadeus")) false false
        (Completed 1 EmptyString "failed")) (trace (snd run))
  /\ fst run <> Exited 1
  /\ exists env, fst run = Launched "/opt/amadeus/amadeusd" ["/opt/amadeus/amadeusd"] env.
Proof.
  vm_compute. split; [do 3 right; left; reflexivity|].
  split; [discriminate|]. eexists. reflexivity.
Qed.

(** * Further properties *)

(** ** Dependencies *)

Lemma probe_missing_sample (c : string) (w : World) :
  bool_decide (c ∈ w_programs w) = false -> c ∉ w_programs w.
Proof. intros H. now apply bool_decide_eq_false in H. Qed.

(** X1. When git or make is not on the search path, the run ends with
    status 1 after probing exactly those two names: both are always probed,
    no container engine is probed and no command is run. *)
Theorem missing_tool_stops_run (h : Host) (args : Args) (w : World) :
  "git" ∉ w_programs w \/ "make" ∉ w_programs w ->
  main h args w
  = (Exited 1,
     logged (start args w)
       [EvWhich "git" (bool_decide ("git" ∈ w_programs w));
        EvWhich "make" (bool_decide ("make" ∈ w_programs w))]).
Proof.
  intros Hmiss. unfold main, build_and_run, bind at 1.
  assert (check_dependencies (start args w)
          = SysExit 1 (logged (start args w)
                         [EvWhich "git" (bool_decide ("git" ∈ w_programs w));
                          EvWhich "make" (bool_decide ("make" ∈ w_programs w))])) as ->.
  { unfold_stage. unfold logged. cbn.
    destruct Hmiss as [H|H]; rewrite (probe_missing _ _ H);
      destruct (bool_decide _); cbn; rewrite <- ?app_assoc; reflexivity. }
  reflexivity.
Qed.

Lemma missing_tool_stops_run_witness :
  let h := Demo.host Demo.all_succeed true in
  main h (Demo.args ChoiceAuto) Scenario.no_git_world
  = (Exited 1,
     logged (start (Demo.args ChoiceAuto) Scenario.no_git_world)
       [EvWhich "git" (bool_decide ("git" ∈ w_programs Scenario.no_git_world));
        EvWhich "make" (bool_decide ("make" ∈ w_programs Scenario.no_git_world))]).
Proof.
  intros h. apply (missing_tool_stops_run h (Demo.args ChoiceAuto) Scenario.no_git_world).
  left. apply probe_missing_sample. vm_compute. reflexivity.
Defined.

(** X2. When [check_dependencies] returns, git and make are on the search
    path, the host is as it was, and the builder differs only in
    [runtime_cmd], which now names the engine: docker or podman, one that
    is on the search path, the requested one under an explicit preference,
    and podman under [auto] only when docker is not there. *)
Theorem check_dependencies_postcondition (s s' : State) :
  check_dependencies s = Ret tt s' ->
  "git" ∈ w_programs (world s)
  /\ "make" ∈ w_programs (world s)
  /\ world s' = world s
  /\ repo_url (self s') = repo_url (self s)
  /\ repo_dir (self s') = repo_dir (self s)
  /\ builder_image (self s') = builder_image (self s)
  /\ binary_name (self s') = binary_name (self s)
  /\ port (self s') = port (self s)
  /\ workdir (self s') = workdir (self s)
  /\ container_runtime (self s') = container_runtime (self s)
  /\ exists rt,
       runtime_cmd (self s') = Some rt
       /\ self s' = set_runtime_cmd (self s) rt
       /\ (rt = "docker" \/ rt = "podman")
       /\ rt ∈ w_programs (world s)
       /\ (container_runtime (self s) = "docker" -> rt = "docker")
       /\ (container_runtime (self s) = "podman" -> rt = "podman")
       /\ (container_runtime (self s) = "auto" -> rt = "podman" ->
           "docker" ∉ w_programs (world s)).
Proof.
  unfold_stage.
  destruct (bool_decide ("git" ∈ w_programs (world s))) eqn:Hgit;
    destruct (bool_decide ("make" ∈ w_programs (world s))) eqn:Hmake;
    cbn [final_state self world trace]; try discriminate.
  apply bool_decide_eq_true in Hgit, Hmake.
  destruct (String.eqb_spec (container_runtime (self s)) "auto") as [Ea|Ea];
    [|destruct (String.eqb_spec (container_runtime (self s)) "docker") as [Ed|Ed];
      [|destruct (String.eqb_spec (container_runtime (self s)) "podman") as [Ep|Ep];
        [|discriminate]]];
    cbn [final_state self world trace];
    destruct (bool_decide ("docker" ∈ w_programs (world s))) eqn:Hd;
    cbn [final_state self world trace negb]; try discriminate;
    try (destruct (bool_decide ("podman" ∈ w_programs (world s))) eqn:Hp;
         cbn [final_state self world trace negb]; try discriminate);
    rewrite ?bool_decide_eq_true, ?bool_decide_eq_false in *;
    intros [= <-]; cbn [self world trace];
    (split; [assumption | split; [assumption | split; [reflexivity|]]]);
    do 7 (split; [reflexivity|]);
    first [ exists "docker"; split; [reflexivity|]; split; [reflexivity|];
            split; [now left|]; split; [assumption|];
            repeat split; intros; congruence
          | exists "podman"; split; [reflexivity|]; split; [reflexivity|];
            split; [now right|]; split; [assumption|];
            repeat split; intros; (congruence || assumption) ].
Qed.

Lemma check_dependencies_postcondition_witness :
  let s := Demo.state_of (Demo.builder "podman") Demo.plain_world in
  runtime_cmd (self (final_state (check_dependencies s))) = Some "podman".
Proof.
  intros s.
  destruct (check_dependencies_postcondition s (final_state (check_dependencies s)))
    as (_ & _ & _ & _ & _ & _ & _ & _ & _ & _ & rt & Hrt & _ & _ & _ & _ & Hp & _).
  { vm_compute. reflexivity. }
  rewrite Hrt. f_equal. apply Hp. reflexivity.
Defined.

(** X3. A builder made with a runtime preference other than [auto],
    [docker] and [podman] is turned down by [build_and_run]: with git and
    make in place it exits with status 1 right after the two dependency
    probes, before any engine is probed and before any command is run.
    [main] never makes such a builder: the preference it passes on is one of
    the three that [parse_arguments] lets through. *)
Theorem invalid_preference_rejected (h : Host) :
  (forall s,
     "git" ∈ w_programs (world s) -> "make" ∈ w_programs (world s) ->
     container_runtime (self s) <> "auto" ->
     container_runtime (self s) <> "docker" ->
     container_runtime (self s) <> "podman" ->
     build_and_run h s
     = SysExit 1 (logged s [EvWhich "git" true; EvWhich "make" true]))
  /\ (forall args w,
        let preference := container_runtime (self (start args w)) in
        preference = "auto" \/ preference = "docker" \/ preference = "podman").
Proof.
  split.
  - intros s Hgit Hmake Ha Hd Hp. unfold build_and_run, bind at 1.
    assert (check_dependencies s
            = SysExit 1 (logged s [EvWhich "git" true; EvWhich "make" true]))
      as ->; [|reflexivity].
    unfold_stage. unfold logged.
    rewrite (probe_found _ _ Hgit), (probe_found _ _ Hmake).
    cbn [final_state self world trace].
    destruct (String.eqb_spec (container_runtime (self s)) "auto"); [contradiction|].
    destruct (String.eqb_spec (container_runtime (self s)) "docker"); [contradiction|].
    destruct (String.eqb_spec (container_runtime (self s)) "podman"); [contradiction|].
    now rewrite <- app_assoc.
  - intros args w. cbn. destruct (arg_container_runtime args); cbn; auto.
Qed.

Lemma invalid_preference_rejected_witness :
  let h := Demo.host Demo.all_succeed true in
  let s := Demo.state_of (Demo.builder "lxc") Demo.plain_world in
  build_and_run h s = SysExit 1 (logged s [EvWhich "git" true; EvWhich "make" true]).
Proof.
  intros h s. apply (proj1 (invalid_preference_rejected h) s).
  - apply (bool_decide_unpack _). vm_compute. exact I.
  - apply (bool_decide_unpack _). vm_compute. exact I.
  - discriminate.
  - discriminate.
  - discriminate.
Defined.

(** ** Strings *)

Lemma append_cons (c : ascii) (s t : string) :
  String c s +:+ t = String c (s +:+ t).
Proof. reflexivity. Qed.

Lemma append_nil_l (t : string) : EmptyString +:+ t = t.
Proof. reflexivity. Qed.

Lemma append_nil_r (s : string) : s +:+ EmptyString = s.
Proof. induction s as [|c s IH]; [reflexivity|]. now rewrite append_cons, IH. Qed.

Lemma append_assoc (s t u : string) : s +:+ (t +:+ u) = (s +:+ t) +:+ u.
Proof. induction s as [|c s IH]; [reflexivity|]. now rewrite !append_cons, IH. Qed.

Lemma lstrip_split (s : string) :
  exists pre, s = pre +:+ PyStr.lstrip s /\ all_space pre = true
              /\ starts_clean (PyStr.lstrip s) = true.
Proof.
  induction s as [|c s (pre & Hs & Hpre & Hclean)]; cbn.
  - exists EmptyString. repeat split.
  - destruct (PyStr.isspace c) eqn:Hc.
    + exists (String c pre).
      split; [rewrite append_cons; f_equal; exact Hs
             | split; [cbn; now rewrite Hc | exact Hclean]].
    + exists EmptyString.
      split; [reflexivity | split; [reflexivity | cbn; now rewrite Hc]].
Qed.

Lemma lstrip_all_space (s : string) : all_space s = true -> PyStr.lstrip s = EmptyString.
Proof.
  induction s as [|c s IH]; cbn; [reflexivity|].
  intros H. apply andb_true_iff in H as [Hc Hs]. rewrite Hc. now apply IH.
Qed.

Lemma strip_all_space (s : string) : all_space s = true -> PyStr.strip s = EmptyString.
Proof.
  intros H. unfold PyStr.strip, PyStr.rstrip. now rewrite (lstrip_all_space s H).
Qed.

Lemma rev_app_spec (s t : string) :
  String.rev_app s t = String.rev s +:+ t.
Proof.
  unfold String.rev. revert t. induction s as [|c s IH]; intros t; [reflexivity|].
  cbn [String.rev_app]. rewrite IH, (IH (String c EmptyString)).
  now rewrite <- append_assoc.
Qed.

Lemma rev_cons (c : ascii) (s : string) :
  String.rev (String c s) = String.rev s +:+ String c EmptyString.
Proof. unfold String.rev at 1. cbn [String.rev_app]. apply rev_app_spec. Qed.

Lemma rev_append (s t : string) :
  String.rev (s +:+ t) = String.rev t +:+ String.rev s.
Proof.
  induction s as [|c s IH].
  - now rewrite append_nil_l, append_nil_r.
  - rewrite append_cons, !rev_cons, IH. now rewrite append_assoc.
Qed.

Lemma rev_rev (s : string) : String.rev (String.rev s) = s.
Proof.
  induction s as [|c s IH]; [reflexivity|].
  rewrite rev_cons, rev_append, IH. reflexivity.
Qed.

Lemma all_space_append (s t : string) :
  all_space (s +:+ t) = all_space s && all_space t.
Proof.
  induction s as [|c s IH]; [reflexivity|].
  rewrite append_cons. cbn [all_space]. now rewrite IH, andb_assoc.
Qed.

Lemma all_space_rev (s : string) : all_space (String.rev s) = all_space s.
Proof.
  induction s as [|c s IH]; [reflexivity|].
  rewrite rev_cons, all_space_append, IH. cbn [all_space]. rewrite andb_true_r.
  apply andb_comm.
Qed.

Lemma rstrip_split (s : string) :
  exists post, s = PyStr.rstrip s +:+ post /\ all_space post = true
               /\ ends_clean (PyStr.rstrip s) = true.
Proof.
  unfold PyStr.rstrip, ends_clean.
  destruct (lstrip_split (String.rev s)) as (pre & Hs & Hpre & Hclean).
  exists (String.rev pre). rewrite rev_rev. split; [|split; [|exact Hclean]].
  - rewrite <- rev_append, <- Hs. now rewrite rev_rev.
  - now rewrite all_space_rev.
Qed.

Lemma starts_clean_prefix (s t : string) :
  starts_clean (s +:+ t) = true -> all_space t = true -> starts_clean s = true.
Proof.
  destruct s as [|c s]; [reflexivity|]. rewrite append_cons. cbn. auto.
Qed.

(** [strip] cuts white space, and only white space, off both ends. *)
Lemma strip_spec (s : string) :
  exists pre post,
    s = pre +:+ PyStr.strip s +:+ post
    /\ all_space pre = true /\ all_space post = true
    /\ starts_clean (PyStr.strip s) = true
    /\ ends_clean (PyStr.strip s) = true.
Proof.
  unfold PyStr.strip.
  destruct (lstrip_split s) as (pre & Hs & Hpre & Hclean).
  destruct (rstrip_split (PyStr.lstrip s)) as (post & Ht & Hpost & Hend).
  exists pre, post. repeat split; try assumption.
  - now rewrite <- Ht.
  - rewrite Ht in Hclean. now apply starts_clean_prefix in Hclean.
Qed.

(** ** The binary, once more *)

(** X4. When nothing is at the conventional path and the search prints
    white space only (nothing, or blank lines), [verify_binary] takes it as
    no match: it exits with status 1 and changes no permission. *)
Theorem blank_search_output_is_no_match (h : Host) (s : State)
    (out err : string) (fs : gmap string Z) :
  path_exists (world s) (conventional_path (self s)) = false ->
  subprocess_run h (find_binary (self s)) None (world s) = (Completed 0 out err, fs) ->
  all_space out = true ->
  verify_binary h s
  = SysExit 1 (ran s (EvRun (find_binary (self s)) None true true (Completed 0 out err)) fs).
Proof.
  intros Hconv Hrun Hblank.
  rewrite (verify_binary_search h s out err fs Hconv Hrun). cbv zeta.
  now rewrite (strip_all_space out Hblank).
Qed.

Lemma blank_search_output_is_no_match_witness :
  let out := "
 " in
  let h := Demo.host (Demo.find_prints out) true in
  let s := Demo.state_of (Demo.builder "auto") Demo.two_binaries_world in
  verify_binary h s
  = SysExit 1 (ran s (EvRun (find_binary (self s)) None true true
                        (Completed 0 out EmptyString)) (w_files Demo.two_binaries_world)).
Proof.
  intros out h s.
  apply (blank_search_output_is_no_match h s out EmptyString
           (w_files Demo.two_binaries_world));
    vm_compute; reflexivity.
Defined.

(** X5. When nothing is at the conventional path and the search itself
    fails, [verify_binary] exits with the search's return code, whatever it
    printed, and changes no permission. *)
Theorem failed_search_exits_with_its_code (h : Host) (s : State)
    (rc : Z) (out err : string) (fs : gmap string Z) :
  path_exists (world s) (conventional_path (self s)) = false ->
  subprocess_run h (find_binary (self s)) None (world s) = (Completed rc out err, fs) ->
  rc <> 0 ->
  verify_binary h s
  = SysExit rc (ran s (EvRun (find_binary (self s)) None true true (Completed rc out err)) fs).
Proof.
  intros Hconv Hrun Hrc. rewrite verify_binary_unfold. unfold bind at 1. rewrite Hconv.
  unfold bind at 1. rewrite (run_command_completed _ _ _ _ _ _ _ _ _ _ Hrun). cbn.
  destruct (Z.eqb_spec rc 0); [contradiction | reflexivity].
Qed.

Lemma failed_search_exits_with_its_code_witness :
  let res := Completed 2 "/opt/amadeus/a/amadeusd" "find: permission denied" in
  let h := Demo.host (Scenario.program_ends "find" res) true in
  let s := Demo.state_of (Demo.builder "auto") Demo.two_binaries_world in
  verify_binary h s
  = SysExit 2 (ran s (EvRun (find_binary (self s)) None true true res)
                 (w_files Demo.two_binaries_world)).
Proof.
  intros res h s.
  apply (failed_search_exits_with_its_code h s 2 "/opt/amadeus/a/amadeusd"
           "find: permission denied" (w_files Demo.two_binaries_world));
    [vm_compute; reflexivity | vm_compute; reflexivity | lia].
Defined.

(** X6. When [verify_binary] returns a path, the builder is as it was and
    the only change the script itself made to the file table is the mode of
    that path, set to 0o755: every other entry is as it was before, or, on
    the search route, as the search left it. *)
Theorem verify_binary_touches_only_the_binary (h : Host) (s s' : State) (p : Path) :
  verify_binary h s = Ret p s' ->
  self s' = self s
  /\ exists fs0,
       ((path_exists (world s) (conventional_path (self s)) = true
         /\ fs0 = w_files (world s))
        \/ (path_exists (world s) (conventional_path (self s)) = false
            /\ fs0 = snd (subprocess_run h (find_binary (self s)) None (world s))))
       /\ w_files (world s') = <[PyPath.to_str p := 493]> fs0
       /\ (forall q, q <> PyPath.to_str p -> w_files (world s') !! q = fs0 !! q).
Proof.
  unfold_stage. fold (conventional_path (self s)). fold (find_binary (self s)).
  destruct (path_exists (world s) (conventional_path (self s))) eqn:Hconv;
    cbn [negb]; intros Hret; revert Hret;
    split_run_eqn; intros Hret; try discriminate;
    injection Hret as <- <-; cbn [self world w_files with_files];
    (split; [reflexivity|]); eexists;
    (split; [first [left; split; reflexivity | right; split; reflexivity]|]);
    (split; [reflexivity|]);
    intros q Hq; now rewrite lookup_insert_ne by congruence.
Qed.

Lemma verify_binary_touches_only_the_binary_witness :
  let h := Demo.host Demo.all_succeed true in
  let s := Demo.state_of (Demo.builder "auto") Demo.plain_world in
  let s' := final_state (verify_binary h s) in
  self s' = self s
  /\ w_files (world s') !! "/opt/amadeus/build.Dockerfile" = Some 420.
Proof.
  intros h s s'.
  destruct (verify_binary_touches_only_the_binary h s s'
              (PyPath.of_str "/opt/amadeus/amadeusd"))
    as (Hself & fs0 & [[_ Hfs]|[Habs _]] & _ & Hframe).
  - vm_compute. reflexivity.
  - split; [exact Hself|].
    rewrite (Hframe "/opt/amadeus/build.Dockerfile") by (vm_compute; discriminate).
    rewrite Hfs. vm_compute. reflexivity.
  - vm_compute in Habs. discriminate Habs.
Defined.

(** ** The container and the build root *)

Lemma to_str_rooted (p : Path) :
  p_root p <> NoRoot -> exists rest, PyPath.to_str p = String "/" rest.
Proof.
  unfold PyPath.to_str. destruct (p_root p); [congruence| |]; intros _; cbn; eauto.
Qed.

Lemma absolute_rooted (cwd p : Path) :
  p_root cwd <> NoRoot -> p_root (PyPath.absolute cwd p) <> NoRoot.
Proof.
  intros Hcwd. unfold PyPath.absolute. destruct (p_root p) eqn:E; cbn; congruence.
Qed.

(** X7. With an engine selected and an absolute current directory,
    [compile_node] runs exactly one command,
    [<engine> run --rm -v <dir>:/app -w /app <image> make], checked, and
    [<dir>] is an absolute path: the build root itself when that is
    absolute, the build root below the current directory otherwise. *)
Theorem compile_node_mounts_absolute_path (h : Host) (s : State) (rt : string) :
  runtime_cmd (self s) = Some rt ->
  p_root (w_cwd (world s)) <> NoRoot ->
  exists (host_dir rest : string) (res : ProcResult),
    trace (final_state (compile_node h s))
    = (trace s ++ [EvRun [rt; "run"; "--rm"; "-v"; host_dir +:+ ":/app"; "-w"; "/app";
                          builder_image (self s); "make"] None true false res])%list
    /\ host_dir = PyPath.to_str (PyPath.absolute (w_cwd (world s)) (repo_dir (self s)))
    /\ host_dir = String "/" rest
    /\ (p_root (repo_dir (self s)) <> NoRoot -> host_dir = PyPath.to_str (repo_dir (self s))).
Proof.
  intros Hrt Hcwd.
  destruct (to_str_rooted _ (absolute_rooted _ (repo_dir (self s)) Hcwd)) as [rest Hrest].
  exists (PyPath.to_str (PyPath.absolute (w_cwd (world s)) (repo_dir (self s)))), rest.
  exists (fst (subprocess_run h
      [rt; "run"; "--rm"; "-v";
       PyPath.to_str (PyPath.absolute (w_cwd (world s)) (repo_dir (self s))) +:+ ":/app";
       "-w"; "/app"; builder_image (self s); "make"] None (world s))).
  split; [|split; [reflexivity|split; [exact Hrest|]]].
  - unfold_stage. rewrite Hrt. cbn [final_state self world trace].
    destruct (fst (subprocess_run h _ None (world s))) as [rc out err| |];
      cbn [final_state self world trace andb negb];
      [destruct (negb (rc =? 0)%Z)|..]; reflexivity.
  - intros Hroot. unfold PyPath.absolute. destruct (p_root (repo_dir (self s))); congruence.
Qed.

Lemma compile_node_mounts_absolute_path_witness :
  let h := Demo.host Demo.all_succeed true in
  exists res,
    trace (final_state (compile_node h Scenario.ready))
    = (trace Scenario.ready
       ++ [EvRun ["docker"; "run"; "--rm"; "-v"; "/opt/amadeus:/app"; "-w"; "/app";
                  "erlang_builder"; "make"] None true false res])%list.
Proof.
  intros h.
  destruct (compile_node_mounts_absolute_path h Scenario.ready "docker")
    as (host_dir & rest & res & Htr & Hdir & _ & _).
  - vm_compute. reflexivity.
  - vm_compute. discriminate.
  - exists res. rewrite Htr, Hdir. vm_compute. reflexivity.
Defined.

(** X8. When [clone_repository] returns, the build root it leaves in
    [repo_dir] holds the build descriptor, so the image builder's own look
    for it succeeds, in each of these cases: the descriptor was found under
    [ex], or resolving the checkout directory gives the checkout directory
    itself. *)
Theorem settled_build_root_has_descriptor (h : Host) (s s1 s' : State) :
  clone_or_update h s = Ret tt s1 ->
  clone_repository h s = Ret tt s' ->
  descriptor_at_root h s1 = false
  \/ realpath h (world s1) (repo_dir (self s1)) = repo_dir (self s1) ->
  path_exists (world s') (repo_dir (self s') // "build.Dockerfile") = true.
Proof.
  intros Hup Hrepo Hcase. unfold clone_repository in Hrepo.
  rewrite (bind_Ret _ _ _ _ _ Hup), resolve_build_root_cases in Hrepo.
  destruct (descriptor_at_root h s1) eqn:Hroot.
  - injection Hrepo as <-. destruct Hcase as [?|Hid]; [discriminate|].
    unfold descriptor_at_root in Hroot. now rewrite Hid in Hroot.
  - destruct (descriptor_at_ex h s1) eqn:Hex; [|discriminate].
    injection Hrepo as <-. exact Hex.
Qed.

Lemma settled_build_root_has_descriptor_witness :
  let h := Demo.host Demo.all_succeed true in
  let s := Demo.state_of (Demo.builder "auto") Demo.ex_world in
  let s' := final_state (clone_repository h s) in
  path_exists (world s') (repo_dir (self s') // "build.Dockerfile") = true.
Proof.
  intros h s s'.
  apply (settled_build_root_has_descriptor h s (final_state (clone_or_update h s)) s').
  - vm_compute. reflexivity.
  - vm_compute. reflexivity.
  - left. vm_compute. reflexivity.
Defined.

(** ** How a run ends *)

Lemma classify_clean (evs : list Event) :
  classify evs = Some None -> Forall harmless evs.
Proof.
  induction evs as [|e rest IH]; cbn; [constructor|].
  destruct (verdict e) eqn:Hv; [destruct rest; discriminate|].
  intros H. constructor; [exact Hv | now apply IH].
Qed.

Lemma classify_fatal (evs : list Event) (c : Z) :
  classify evs = Some (Some c) ->
  exists pre e, evs = (pre ++ [e])%list /\ Forall harmless pre /\ verdict e = Some c.
Proof.
  induction evs as [|e rest IH]; cbn; [discriminate|].
  destruct (verdict e) eqn:Hv.
  - destruct rest; [|discriminate]. intros [= ->]. exists [], e.
    split; [reflexivity|]. split; [constructor | assumption].
  - intros H. destruct (IH H) as (pre & e' & -> & Hpre & He').
    exists (e :: pre), e'. split; [reflexivity|]. split; [now constructor | assumption].
Qed.




(** How a run of [main] ended, read off its trace. *)
Lemma main_trace_classified (h : Host) (args : Args) (w : World) :
  let r := build_and_run h (start args w) in
  trace (snd (main h args w)) = trace (final_state r)
  /\ match classify (trace (final_state r)) with
     | Some None => status_of r = None \/ status_of r = Some 1
     | Some (Some c) => status_of r = Some c
     | None => False
     end.
Proof.
  cbv zeta. rewrite final_state_main. split; [reflexivity|].
  destruct (build_and_run_accounted h (start args w)) as (evs & Htr & Hc).
  cbn [start trace app] in Htr. now rewrite Htr.
Qed.


(** X10. Nothing follows a failure: an effect that forces an exit status (a
    checked command that returned non-zero, an interrupt, an
    operating-system error) is the last effect of the run, and every effect
    before it went well. *)
Theorem nothing_follows_a_fatal_effect (h : Host) (args : Args) (w : World)
    (e : Event) (c : Z) :
  In e (trace (snd (main h args w))) -> verdict e = Some c ->
  exists pre, trace (snd (main h args w)) = (pre ++ [e])%list /\ Forall harmless pre.
Proof.
  intros Hin Hv. destruct (main_trace_classified h args w) as [Htr Hc].
  rewrite Htr in *.
  destruct (classify _) as [[c'|]|] eqn:Hcl; [| |contradiction].
  - destruct (classify_fatal _ _ Hcl) as (pre & e' & Hevs & Hpre & He').
    rewrite Hevs in Hin |- *. apply in_app_or in Hin as [Hin|[<-|[]]].
    + rewrite Forall_forall in Hpre. apply list_elem_of_In in Hin.
      specialize (Hpre _ Hin). unfold harmless in Hpre. congruence.
    + now exists pre.
  - apply classify_clean in Hcl. rewrite Forall_forall in Hcl.
    apply list_elem_of_In in Hin. specialize (Hcl _ Hin). unfold harmless in Hcl. congruence.
Qed.

Lemma nothing_follows_a_fatal_effect_witness :
  let h := Demo.host (Demo.failing "build" 7) true in
  let e := EvRun ["docker"; "build"; "--tag"; "erlang_builder"; "-f"; "build.Dockerfile"; "."]
             (Some (PyPath.of_str "/opt/amadeus")) true false
             (Completed 7 EmptyString "failed") in
  exists pre,
    trace (snd (main h (Demo.args ChoiceAuto) Demo.plain_world)) = (pre ++ [e])%list
    /\ Forall harmless pre.
Proof.
  intros h e.
  apply (nothing_follows_a_fatal_effect h (Demo.args ChoiceAuto) Demo.plain_world e 7).
  - vm_compute. do 4 right. left. reflexivity.
  - reflexivity.
Defined.




(** ** Stage order *)

Lemma leads_bind {A B} (P Q R : State -> Prop) (m : M A) (k : A -> M B) :
  (forall s, Q s -> R s) -> leads P Q m -> (forall a, leads Q R (k a)) ->
  leads P R (bind m k).
Proof.
  intros Hqr Hm Hk s Hs. specialize (Hm s Hs). unfold bind.
  destruct (m s) as [a s1|c s1|e s1|p a e s1]; cbn in *; try (now apply Hqr).
  now apply Hk.
Qed.

Lemma advance_app (prev : nat) (a b : list Event) :
  advance prev (a ++ b)
  = match advance prev a with Some p => advance p b | None => None end.
Proof.
  revert prev. induction a as [|e a IH]; intros prev; cbn; [reflexivity|].
  destruct (may_follow prev (phase e)); [apply IH | reflexivity].
Qed.

Lemma advance_snoc (tr : list Event) (e : Event) (p : nat) :
  advance 0 tr = Some p -> may_follow p (phase e) = true ->
  advance 0 (tr ++ [e]) = Some (phase e).
Proof. intros Ha Hf. rewrite advance_app, Ha. cbn. now rewrite Hf. Qed.

Lemma may_follow_spec (p q : nat) :
  may_follow p q = true <-> ((p < q)%nat \/ (q = 0%nat /\ p = 0%nat)) /\ (q < 8)%nat.
Proof.
  unfold may_follow.
  rewrite andb_true_iff, orb_true_iff, andb_true_iff, !Nat.ltb_lt, !Nat.eqb_eq.
  reflexivity.
Qed.

Lemma in_order_le (j k : nat) (s : State) : (j <= k)%nat -> in_order j s -> in_order k s.
Proof.
  intros Hjk (He & p & Hp & Hle). split; [exact He|]. exists p. split; [exact Hp | lia].
Qed.

Ltac known_engine :=
  repeat match goal with
         | He : engine_named ?b, H : runtime_cmd ?b = Some ?rt |- _ =>
             destruct (He rt H) as [->| ->]; clear H
         end.

Ltac step_phase :=
  lazymatch goal with
  | |- advance 0 (_ ++ [_]) = Some _ =>
      eapply advance_snoc; [step_phase | apply may_follow_spec; cbn; lia]
  | |- advance 0 _ = Some _ => eassumption
  end.

(** Closes [in_order hi s'] when the trace of [s'] is that of [s] with a few
    effects of known phase appended. *)
Ltac order_leaf :=
  intros (He & reached & Hp & Hle); known_engine;
  unfold in_order; cbn [final_state self world trace];
  (split;
   [ first [ exact He
           | intros rt; cbn; intros [= <-]; auto ]
   | first [ exists reached; split; [exact Hp | lia]
           | eexists; split; [step_phase | cbn; lia] ] ]).

Lemma check_dependencies_in_order : leads (in_order 0) (in_order 0) check_dependencies.
Proof. intros s. unfold_stage. split_run_eqn; order_leaf. Qed.

Lemma clone_repository_in_order (h : Host) :
  leads (in_order 0) (in_order 1) (clone_repository h).
Proof. intros s. unfold_stage. split_run_eqn; order_leaf. Qed.

Lemma build_builder_image_in_order (h : Host) :
  leads (in_order 1) (in_order 2) (build_builder_image h).
Proof. intros s. unfold_stage. split_run_eqn; order_leaf. Qed.

Lemma compile_node_in_order (h : Host) : leads (in_order 2) (in_order 3) (compile_node h).
Proof. intros s. unfold_stage. split_run_eqn; order_leaf. Qed.

Lemma verify_binary_in_order (h : Host) : leads (in_order 3) (in_order 5) (verify_binary h).
Proof. intros s. unfold_stage. split_run_eqn; order_leaf. Qed.

Lemma create_work_directory_in_order (h : Host) :
  leads (in_order 5) (in_order 6) (create_work_directory h).
Proof. intros s. unfold_stage. split_run_eqn; order_leaf. Qed.

Lemma run_node_in_order (h : Host) (p : Path) :
  leads (in_order 6) (in_order 7) (run_node h p).
Proof. intros s. unfold_stage. split_run_eqn; order_leaf. Qed.

Lemma build_and_run_in_order (h : Host) :
  leads (in_order 0) (in_order 7) (build_and_run h).
Proof.
  unfold build_and_run.
  apply (leads_bind _ (in_order 0));
    [intros s0; apply in_order_le; lia | apply check_dependencies_in_order | intros _].
  apply (leads_bind _ (in_order 1));
    [intros s0; apply in_order_le; lia | apply clone_repository_in_order | intros _].
  apply (leads_bind _ (in_order 2));
    [intros s0; apply in_order_le; lia | apply build_builder_image_in_order | intros _].
  apply (leads_bind _ (in_order 3));
    [intros s0; apply in_order_le; lia | apply compile_node_in_order | intros _].
  apply (leads_bind _ (in_order 5));
    [intros s0; apply in_order_le; lia | apply verify_binary_in_order | intros p].
  apply (leads_bind _ (in_order 6));
    [intros s0; apply in_order_le; lia | apply create_work_directory_in_order | intros _].
  apply run_node_in_order.
Qed.

Lemma main_forward (h : Host) (args : Args) (w : World) :
  forward (trace (snd (main h args w))) = true.
Proof.
  rewrite final_state_main.
  destruct (build_and_run_in_order h (start args w)) as (_ & p & Hp & _).
  - split; [intros rt; discriminate|]. exists 0%nat. split; [reflexivity | lia].
  - unfold forward. now rewrite Hp.
Qed.

Lemma advance_all (tr : list Event) (prev q : nat) (e : Event) :
  advance prev tr = Some q -> In e tr ->
  ((prev < phase e)%nat \/ (phase e = 0%nat /\ prev = 0%nat)) /\ (phase e < 8)%nat.
Proof.
  revert prev. induction tr as [|e0 rest IH]; intros prev Ha Hin; [contradiction|].
  cbn [advance] in Ha. destruct (may_follow prev (phase e0)) eqn:Hf; [|discriminate].
  apply may_follow_spec in Hf. destruct Hin as [<-|Hin]; [exact Hf|].
  destruct (IH _ Ha Hin) as [Hlt Hb]. split; [lia | exact Hb].
Qed.

(** X12. The pipeline only moves forward.  Of any two effects of a run,
    the later one belongs to a later stage than the earlier one, unless both
    are probes of the search path: probes, checkout, image build,
    compilation, search, permission change, work directory, launch, in that
    order, each stage after the probes acting at most once and none acting
    again after a later one. *)
Theorem effects_follow_stage_order (h : Host) (args : Args) (w : World)
    (before between after : list Event) (e1 e2 : Event) :
  trace (snd (main h args w)) = (before ++ e1 :: between ++ e2 :: after)%list ->
  ((phase e1 < phase e2)%nat \/ (phase e1 = 0%nat /\ phase e2 = 0%nat))
  /\ (phase e2 < 8)%nat.
Proof.
  intros Htr. pose proof (main_forward h args w) as Hf.
  unfold forward in Hf. rewrite Htr, advance_app in Hf.
  destruct (advance 0 before) as [p1|]; [|discriminate].
  cbn [advance] in Hf. destruct (may_follow p1 (phase e1)); [|discriminate].
  destruct (advance (phase e1) (between ++ e2 :: after)) as [q|] eqn:Ha; [|discriminate].
  destruct (advance_all _ _ _ e2 Ha) as [Hlt Hb].
  { apply in_or_app. right. now left. }
  split; [lia | exact Hb].
Qed.

Lemma effects_follow_stage_order_witness :
  let h := Demo.host Demo.all_succeed true in
  let tr := trace (snd (main h (Demo.args ChoiceAuto) Demo.plain_world)) in
  let d := EvWhich "git" true in
  phase (nth 3 tr d) = 1%nat /\ phase (nth 5 tr d) = 3%nat
  /\ (phase (nth 3 tr d) < phase (nth 5 tr d))%nat.
Proof.
  intros h tr d.
  destruct (effects_follow_stage_order h (Demo.args ChoiceAuto) Demo.plain_world
              (firstn 3 tr) [nth 4 tr d] (skipn 6 tr) (nth 3 tr d) (nth 5 tr d))
    as [[Hlt|[H0 _]] _].
  - vm_compute. reflexivity.
  - split; [vm_compute; reflexivity|]. split; [vm_compute; reflexivity | exact Hlt].
  - vm_compute in H0. discriminate H0.
Defined.

(** ** The commands of a run *)

Lemma listed_mono (e : Event) (rt : string) : listed None e -> listed (Some rt) e.
Proof.
  destruct e as [| cmd cwd check capture res | | |]; cbn; auto.
  intros [H|[H|[H|(x & Hx & _)]]]; [auto | auto | auto | discriminate].
Qed.

Lemma Forall_listed_mono (tr : list Event) (rt : string) :
  Forall (listed None) tr -> Forall (listed (Some rt)) tr.
Proof.
  intros H. eapply Forall_impl; [exact H|]. intros e. apply listed_mono.
Qed.

Ltac listed_now :=
  cbn;
  first [ left; repeat split; reflexivity
        | right; left; eexists; repeat split; reflexivity
        | right; right; left; eexists; repeat split; reflexivity
        | right; right; right; eexists; split; [eassumption|];
          split; [reflexivity|]; split; [reflexivity|];
          first [ left; reflexivity | right; eexists; split; reflexivity ]
        | exact I ].

Ltac inventory_leaf :=
  intros (Hurl & Himg & Hbin & Hprog & Heng & Hall);
  unfold equipped; cbn [final_state self world trace w_programs with_files
                        repo_url builder_image binary_name runtime_cmd
                        set_runtime_cmd set_repo_dir];
  rewrite ?Hurl, ?Himg, ?Hbin in *;
  (split; [reflexivity|]); (split; [reflexivity|]); (split; [reflexivity|]);
  (split; [exact Hprog|]);
  (split; [exact Heng|]);
  repeat (apply Forall_snoc_benign; [| listed_now]);
  exact Hall.

Lemma clone_repository_equipped (h : Host) programs :
  leads (equipped programs) (equipped programs) (clone_repository h).
Proof. intros s. unfold_stage. split_run_eqn; inventory_leaf. Qed.

Lemma build_builder_image_equipped (h : Host) programs :
  leads (equipped programs) (equipped programs) (build_builder_image h).
Proof. intros s. unfold_stage. split_run_eqn; inventory_leaf. Qed.

Lemma compile_node_equipped (h : Host) programs :
  leads (equipped programs) (equipped programs) (compile_node h).
Proof. intros s. unfold_stage. split_run_eqn; inventory_leaf. Qed.

Lemma verify_binary_equipped (h : Host) programs :
  leads (equipped programs) (equipped programs) (verify_binary h).
Proof. intros s. unfold_stage. split_run_eqn; inventory_leaf. Qed.

Lemma create_work_directory_equipped (h : Host) programs :
  leads (equipped programs) (equipped programs) (create_work_directory h).
Proof. intros s. unfold_stage. split_run_eqn; inventory_leaf. Qed.

Lemma run_node_equipped (h : Host) programs (p : Path) :
  leads (equipped programs) (equipped programs) (run_node h p).
Proof. intros s. unfold_stage. split_run_eqn; inventory_leaf. Qed.

Ltac selection_leaf :=
  intros (Hnone & Hurl & Himg & Hbin & Hprog & Heng & Hall);
  rewrite Hnone in Hall;
  unfold equipped; cbn [final_state self world trace w_programs with_files
                        repo_url builder_image binary_name runtime_cmd
                        set_runtime_cmd set_repo_dir];
  repeat match goal with
         | H : negb _ = false |- _ => apply negb_false_iff in H
         | H : bool_decide _ = true |- _ => apply bool_decide_eq_true in H
         end;
  rewrite ?Hprog in *;
  (split; [exact Hurl|]); (split; [exact Himg|]); (split; [exact Hbin|]);
  (split; [reflexivity|]);
  (split;
   [ first [ intros rt Hrt; rewrite Hnone in Hrt; discriminate Hrt
           | intros rt [= <-]; split; [auto | assumption] ]
   | rewrite ?Hnone;
     repeat (apply Forall_snoc_benign; [| exact I]);
     first [ exact Hall | now apply Forall_listed_mono ] ]).

Lemma check_dependencies_equipped programs :
  leads (unequipped programs) (equipped programs) check_dependencies.
Proof. intros s. unfold_stage. split_run_eqn; selection_leaf. Qed.

Lemma build_and_run_equipped (h : Host) programs :
  leads (unequipped programs) (equipped programs) (build_and_run h).
Proof.
  unfold build_and_run.
  apply (leads_bind _ (equipped programs)); [auto | apply check_dependencies_equipped | intros _].
  apply (leads_bind _ (equipped programs)); [auto | apply clone_repository_equipped | intros _].
  apply (leads_bind _ (equipped programs)); [auto | apply build_builder_image_equipped | intros _].
  apply (leads_bind _ (equipped programs)); [auto | apply compile_node_equipped | intros _].
  apply (leads_bind _ (equipped programs)); [auto | apply verify_binary_equipped | intros p].
  apply (leads_bind _ (equipped programs)); [auto | apply create_work_directory_equipped | intros _].
  apply run_node_equipped.
Qed.

Lemma start_unequipped (args : Args) (w : World) : unequipped (w_programs w) (start args w).
Proof.
  split; [reflexivity|]. repeat split; try reflexivity; try discriminate. constructor.
Qed.

(** X13. The script runs no other command than these: [git pull origin
    main], unchecked; [git clone <upstream url> <dir>]; [find <dir> -name
    amadeusd -type f], with its output captured; [<engine> build --tag
    erlang_builder -f build.Dockerfile .]; and [<engine> run --rm -v
    <dir>:/app -w /app erlang_builder make] -- all but the pull checked, and
    [<engine>] being the one engine the run selected: docker or podman, and
    found on the search path. *)
Theorem command_inventory (h : Host) (args : Args) (w : World)
    (cmd : list string) (cwd : option Path) (check capture : bool) (res : ProcResult) :
  In (EvRun cmd cwd check capture res) (trace (snd (main h args w))) ->
  (cmd = ["git"; "pull"; "origin"; "main"] /\ check = false /\ capture = false)
  \/ (exists dir,
        cmd = ["git"; "clone"; "https://github.com/amadeusprotocol/node.git"; dir]
        /\ cwd = None /\ check = true /\ capture = false)
  \/ (exists dir,
        cmd = ["find"; dir; "-name"; "amadeusd"; "-type"; "f"]
        /\ cwd = None /\ check = true /\ capture = true)
  \/ (exists rt,
        runtime_cmd (self (snd (main h args w))) = Some rt
        /\ (rt = "docker" \/ rt = "podman")
        /\ rt ∈ w_programs w
        /\ check = true /\ capture = false
        /\ (cmd = [rt; "build"; "--tag"; "erlang_builder"; "-f"; "build.Dockerfile"; "."]
            \/ exists dir,
                 cmd = [rt; "run"; "--rm"; "-v"; dir +:+ ":/app"; "-w"; "/app";
                        "erlang_builder"; "make"] /\ cwd = None)).
Proof.
  intros Hin. rewrite final_state_main in *.
  destruct (build_and_run_equipped h (w_programs w) (start args w) (start_unequipped args w))
    as (_ & _ & _ & _ & Heng & Hall).
  rewrite Forall_forall in Hall. apply list_elem_of_In in Hin.
  specialize (Hall _ Hin). cbn in Hall.
  destruct Hall as [H|[H|[H|(rt & Hrt & Hc & Hcap & Hcmd)]]]; auto.
  right. right. right. exists rt. destruct (Heng rt Hrt) as [Hname Hinst].
  repeat split; auto.
Qed.

Lemma command_inventory_witness :
  let h := Demo.host Demo.all_succeed true in
  let run := main h (Demo.args ChoicePodman) Demo.ex_world in
  runtime_cmd (self (snd run)) = Some "podman"
  /\ In (EvRun ["podman"; "run"; "--rm"; "-v"; "/opt/amadeus/ex:/app"; "-w"; "/app";
                "erlang_builder"; "make"] None true false Demo.silence) (trace (snd run)).
Proof.
  intros h run.
  assert (In (EvRun ["podman"; "run"; "--rm"; "-v"; "/opt/amadeus/ex:/app"; "-w"; "/app";
                     "erlang_builder"; "make"] None true false Demo.silence)
             (trace (snd run))) as Hin
    by (vm_compute; do 5 right; left; reflexivity).
  split; [|exact Hin].
  destruct (command_inventory h (Demo.args ChoicePodman) Demo.ex_world _ _ _ _ _ Hin)
    as [(H & _)|[(dir & H & _)|[(dir & H & _)|(rt & Hrt & _ & _ & _ & _ & Hcmd)]]];
    try discriminate H.
  unfold run. rewrite Hrt. destruct Hcmd as [H|(dir & H & _)]; [discriminate H|].
  now injection H as <-.
Defined.

(** ** A run that launches *)

Ltac ret_inv :=
  unfold_stage; split_run_eqn; intros Hret; try discriminate Hret;
  injection Hret as <-; cbn [self world trace];
  repeat match goal with
         | H : negb (_ =? _)%Z = false |- _ =>
             apply negb_false_iff, Z.eqb_eq in H; subst
         end.

Lemma check_dependencies_Ret (s s' : State) :
  check_dependencies s = Ret tt s' ->
  git_clone (self s') = git_clone (self s)
  /\ exists probes, trace s' = (trace s ++ probes)%list /\ Forall is_probe probes.
Proof.
  ret_inv; (split; [reflexivity|]);
    eexists; (split; [rewrite <- ?app_assoc; reflexivity |]);
    repeat constructor.
Qed.

Lemma clone_repository_Ret (h : Host) (s s' : State) :
  clone_repository h s = Ret tt s' ->
  exists cmd cwd check rc out err,
    trace s' = (trace s ++ [EvRun cmd cwd check false (Completed rc out err)])%list
    /\ ((cmd = git_pull /\ cwd = Some (repo_dir (self s)) /\ check = false)
        \/ (cmd = git_clone (self s) /\ cwd = None /\ check = true /\ rc = 0)).
Proof.
  ret_inv;
    do 6 eexists; (split; [reflexivity|]);
    first [ left; repeat split; reflexivity | right; repeat split; reflexivity ].
Qed.

Lemma build_builder_image_Ret (h : Host) (s s' : State) :
  build_builder_image h s = Ret tt s' ->
  exists rt out err,
    runtime_cmd (self s) = Some rt
    /\ self s' = self s
    /\ w_cwd (world s') = w_cwd (world s)
    /\ trace s'
       = (trace s ++ [EvRun [rt; "build"; "--tag"; builder_image (self s); "-f";
                             "build.Dockerfile"; "."]
                        (Some (repo_dir (self s))) true false (Completed 0 out err)])%list.
Proof.
  ret_inv;
    do 3 eexists; (split; [first [eassumption | reflexivity]|]);
    repeat split; reflexivity.
Qed.

Lemma compile_node_Ret (h : Host) (s s' : State) :
  compile_node h s = Ret tt s' ->
  exists rt out err,
    runtime_cmd (self s) = Some rt
    /\ self s' = self s
    /\ trace s'
       = (trace s ++ [EvRun [rt; "run"; "--rm"; "-v";
                             PyPath.to_str (PyPath.absolute (w_cwd (world s))
                                              (repo_dir (self s))) +:+ ":/app";
                             "-w"; "/app"; builder_image (self s); "make"]
                        None true false (Completed 0 out err)])%list.
Proof.
  ret_inv;
    do 3 eexists; (split; [first [eassumption | reflexivity]|]); split; reflexivity.
Qed.

Lemma verify_binary_Ret (h : Host) (s s' : State) (p : Path) :
  verify_binary h s = Ret p s' ->
  self s' = self s
  /\ ((p = conventional_path (self s)
       /\ trace s' = (trace s ++ [EvChmod p 493 true])%list)
      \/ (exists out err,
            p = PyPath.of_str (PyStr.strip out)
            /\ trace s'
               = (trace s ++ [EvRun (find_binary (self s)) None true true
                                (Completed 0 out err);
                              EvChmod p 493 true])%list)).
Proof.
  unfold_stage. fold (conventional_path (self s)). fold (find_binary (self s)).
  split_run_eqn; intros Hret; try discriminate Hret;
    injection Hret as <- <-; cbn [self world trace];
    repeat match goal with
           | H : negb (_ =? _)%Z = false |- _ =>
               apply negb_false_iff, Z.eqb_eq in H; subst
           end;
    (split; [reflexivity|]);
    first [ left; split; reflexivity
          | right; do 2 eexists; split; [reflexivity|];
            rewrite <- app_assoc; reflexivity ].
Qed.

Lemma create_work_directory_Ret (h : Host) (s s' : State) :
  create_work_directory h s = Ret tt s' ->
  self s' = self s
  /\ trace s' = (trace s ++ [EvMkdir (PyPath.of_str (workdir (self s))) true])%list.
Proof. ret_inv; split; reflexivity. Qed.

Lemma run_node_Replaced (h : Host) (p : Path) (s s' : State) path argv env :
  run_node h p s = Replaced path argv env s' ->
  path = PyPath.to_str p
  /\ self s' = self s
  /\ trace s' = (trace s ++ [EvExecve path [path] env true])%list.
Proof.
  unfold_stage. destruct (execve_ok h _ _ _ (world s)); [|discriminate].
  intros [= <- <- <- <-]. repeat split; reflexivity.
Qed.

(** X14. A run that launches the binary did, in this order and nothing
    else: probes of the search path; one git command (pull or clone); the
    image build, which returned 0; the compilation in a container of the
    same engine and the same image, mounting the absolute build root, which
    returned 0; a search for the binary, only if nothing was at the
    conventional path, which returned 0; the permission change of the path
    it settled on; the creation of the configured work directory; and the
    launch of that path. *)
Theorem launch_trace (h : Host) (args : Args) (w : World)
    (path : string) (argv : list string) (env : gmap string string) :
  fst (main h args w) = Launched path argv env ->
  exists probes git_cmd git_cwd git_check git_res rt build_dir out1 err1
         out2 err2 search p,
    trace (snd (main h args w))
    = (probes
       ++ [EvRun git_cmd git_cwd git_check false git_res;
           EvRun [rt; "build"; "--tag"; "erlang_builder"; "-f"; "build.Dockerfile"; "."]
             (Some build_dir) true false (Completed 0 out1 err1);
           EvRun [rt; "run"; "--rm"; "-v";
                  PyPath.to_str (PyPath.absolute (w_cwd w) build_dir) +:+ ":/app";
                  "-w"; "/app"; "erlang_builder"; "make"]
             None true false (Completed 0 out2 err2)]
       ++ search
       ++ [EvChmod p 493 true;
           EvMkdir (PyPath.of_str (arg_workdir args)) true;
           EvExecve path [path] env true])%list
    /\ Forall is_probe probes
    /\ (git_cmd = git_pull \/ git_cmd = git_clone (self (start args w)))
    /\ build_dir = repo_dir (self (snd (main h args w)))
    /\ (search = [] /\ p = build_dir // "amadeusd"
        \/ exists out err,
             search = [EvRun ["find"; PyPath.to_str build_dir; "-name"; "amadeusd";
                              "-type"; "f"] None true true (Completed 0 out err)]
             /\ p = PyPath.of_str (PyStr.strip out))
    /\ path = PyPath.to_str p.
Proof.
  intros Hl.
  destruct (main_Launched_inv h args w _ _ _ Hl) as [sf Hrun].
  assert (snd (main h args w) = sf) as Hsf by (rewrite final_state_main, Hrun; reflexivity).
  rewrite Hsf. clear Hsf Hl.
  destruct (build_and_run_launch_inv h _ _ _ _ _ Hrun)
    as (s1 & s2 & s3 & s4 & p & s5 & s6 & H1 & H2 & H3 & H4 & H5 & H6 & H7).
  (* what the builder and the host carry at each point *)
  pose proof (check_dependencies_equipped (w_programs w) (start args w)
                (start_unequipped args w)) as Eq1.
  rewrite H1 in Eq1. cbn [final_state] in Eq1.
  pose proof (clone_repository_equipped h (w_programs w) s1 Eq1) as Eq2.
  rewrite H2 in Eq2. cbn [final_state] in Eq2.
  destruct Eq2 as (_ & Himg & Hbin & _).
  pose proof (check_dependencies_orderly (self (start args w)) (w_environ w)
                (start args w)) as ((_ & Hw1 & _) & (_ & Hc1) & _).
  rewrite H1 in Hw1, Hc1. cbn [final_state] in Hw1, Hc1.
  pose proof (clone_repository_orderly h (self (start args w)) (w_environ w) s1)
    as ((_ & Hw2 & _) & (_ & Hc2) & _).
  rewrite H2 in Hw2, Hc2. cbn [final_state] in Hw2, Hc2.
  (* the effects of each stage *)
  destruct (check_dependencies_Ret _ _ H1) as (Hclone & probes & T1 & Hprobes).
  destruct (clone_repository_Ret h _ _ H2) as (gc & gw & gk & grc & gout & gerr & T2 & Hgit).
  destruct (build_builder_image_Ret h _ _ H3) as (rt & o1 & e1 & Hrt & S3 & Hc3 & T3).
  destruct (compile_node_Ret h _ _ H4) as (rt' & o2 & e2 & Hrt' & S4 & T4).
  destruct (verify_binary_Ret h _ _ _ H5) as (S5 & Hfind).
  destruct (create_work_directory_Ret h _ _ H6) as (S6 & T6).
  destruct (run_node_Replaced h _ _ _ _ _ _ H7) as (Hpath & S7 & T7).
  rewrite S3 in Hrt'. rewrite Hrt in Hrt'. injection Hrt' as <-.
  assert (self sf = self s2) as S72 by congruence.
  assert (workdir (self s5) = arg_workdir args) as Hwd.
  { rewrite S5, S4, S3, Hw2, Hw1. reflexivity. }
  assert (w_cwd (world s3) = w_cwd w) as Hcwd.
  { rewrite Hc3, Hc2, Hc1. reflexivity. }
  exists probes, gc, gw, gk, (Completed grc gout gerr), rt, (repo_dir (self s2)), o1, e1.
  exists o2, e2.
  destruct Hfind as [[Hp T5]|(out & err & Hp & T5)].
  - exists [], p.
    split; [|split; [exact Hprobes|split; [|split; [|split; [|exact Hpath]]]]].
    + rewrite T7, T6, T5, T4, T3, T2, T1, Hwd, S3, Himg, Hcwd. cbn [start trace app].
      rewrite <- !app_assoc. reflexivity.
    + destruct Hgit as [(-> & _)|(-> & _)]; [now left|right]. exact Hclone.
    + now rewrite S72.
    + left. split; [reflexivity|]. rewrite Hp. unfold conventional_path.
      now rewrite S4, S3, Hbin.
  - exists [EvRun ["find"; PyPath.to_str (repo_dir (self s2)); "-name"; "amadeusd";
                   "-type"; "f"] None true true (Completed 0 out err)], p.
    split; [|split; [exact Hprobes|split; [|split; [|split; [|exact Hpath]]]]].
    + rewrite T7, T6, T5, T4, T3, T2, T1, Hwd, S3, Himg, Hcwd. cbn [start trace app].
      unfold find_binary. rewrite S4, S3, Hbin.
      rewrite <- !app_assoc. reflexivity.
    + destruct Hgit as [(-> & _)|(-> & _)]; [now left|right]. exact Hclone.
    + now rewrite S72.
    + right. exists out, err. split; [reflexivity | exact Hp].
Qed.

Lemma launch_trace_witness :
  let out := "/opt/amadeus/_build/amadeusd
" in
  let h := Demo.host (Demo.find_prints out) true in
  let run := main h (Demo.args ChoiceAuto) Demo.nested_binary_world in
  fst run = Launched "/opt/amadeus/_build/amadeusd" ["/opt/amadeus/_build/amadeusd"]
              (node_env (Demo.builder "auto") (w_environ Demo.nested_binary_world))
  /\ exists pre p,
       trace (snd run)
       = (pre ++ [EvChmod p 493 true;
                  EvMkdir (PyPath.of_str "/data/x") true;
                  EvExecve "/opt/amadeus/_build/amadeusd" ["/opt/amadeus/_build/amadeusd"]
                    (node_env (Demo.builder "auto") (w_environ Demo.nested_binary_world))
                    true])%list
       /\ "/opt/amadeus/_build/amadeusd" = PyPath.to_str p.
Proof.
  intros out h run.
  assert (fst run
          = Launched "/opt/amadeus/_build/amadeusd" ["/opt/amadeus/_build/amadeusd"]
              (node_env (Demo.builder "auto") (w_environ Demo.nested_binary_world)))
    as Hl by (vm_compute; reflexivity).
  split; [exact Hl|].
  destruct (launch_trace h (Demo.args ChoiceAuto) Demo.nested_binary_world _ _ _ Hl)
    as (probes & gc & gw & gk & gr & rt & dir & o1 & e1 & o2 & e2 & search & p
        & Htr & _ & _ & _ & _ & Hp).
  eexists _, p. split; [|exact Hp].
  unfold run. rewrite Htr. rewrite !app_assoc. reflexivity.
Defined.

(** ** Captured output *)

(** X15. When [run_command] is asked to capture and returns, the command
    has completed (with return code 0 if it was checked) and the text
    handed back is its standard output with the white space at both ends
    removed, and nothing else: it neither begins nor ends with white space,
    and what was cut off is white space only. *)
Theorem captured_output_is_stripped (h : Host) (cmd : list string) (cwd : option Path)
    (check : bool) (s s' : State) (text : string) :
  run_command h cmd cwd check true s = Ret (Stdout text) s' ->
  exists rc stdout stderr pre post,
    fst (subprocess_run h cmd cwd (world s)) = Completed rc stdout stderr
    /\ (check = true -> rc = 0)
    /\ stdout = pre +:+ text +:+ post
    /\ all_space pre = true /\ all_space post = true
    /\ starts_clean text = true /\ ends_clean text = true.
Proof.
  unfold run_command. plumbing.
  destruct (fst (subprocess_run h cmd cwd (world s))) as [rc out err| |] eqn:Hres;
    try discriminate.
  destruct (check && negb (rc =? 0)%Z) eqn:Hchk; [discriminate|].
  intros [= <- <-].
  destruct (strip_spec out) as (pre & post & Hout & Hpre & Hpost & Hs & He).
  exists rc, out, err, pre, post. repeat split; try assumption.
  intros ->. cbn in Hchk. apply negb_false_iff in Hchk. now apply Z.eqb_eq.
Qed.

Lemma captured_output_is_stripped_witness :
  let out := "  /opt/amadeus/_build/amadeusd
" in
  let h := Demo.host (Demo.find_prints out) true in
  let s := Demo.state_of (Demo.builder "auto") Demo.nested_binary_world in
  exists pre post,
    out = pre +:+ "/opt/amadeus/_build/amadeusd" +:+ post
    /\ all_space pre = true /\ all_space post = true.
Proof.
  intros out h s.
  destruct (captured_output_is_stripped h ["find"] None true s
              (final_state (run_command h ["find"] None true true s))
              "/opt/amadeus/_build/amadeusd")
    as (rc & stdout & stderr & pre & post & Hres & _ & Hout & Hpre & Hpost & _).
  - vm_compute. reflexivity.
  - exists pre, post. vm_compute in Hres. injection Hres as _ <- _.
    repeat split; assumption.
Defined.

(** ** Paths and their text *)

Lemma split_slash_free (s : string) :
  Forall (fun x => slash_free x = true) (PyStr.split "/" s).
Proof.
  induction s as [|c s IH]; cbn [PyStr.split]; [repeat constructor|].
  destruct (Ascii.eqb c "/") eqn:Hc; [constructor; [reflexivity | exact IH]|].
  destruct (PyStr.split "/" s) as [|x rest]; [repeat constructor; cbn; now rewrite Hc|].
  inversion IH as [|? ? Hx Hrest]; subst. constructor; [|exact Hrest].
  cbn. now rewrite Hc.
Qed.

Lemma of_str_parts_proper (s : string) :
  Forall (fun x => proper_part x = true) (p_parts (PyPath.of_str s)).
Proof.
  unfold PyPath.of_str. cbn [p_parts].
  pose proof (split_slash_free s) as H.
  induction H as [|x l Hx Hl IH]; cbn [List.filter]; [constructor|].
  destruct (PyPath.keep_part x) eqn:Hk; [|exact IH].
  constructor; [|exact IH]. unfold proper_part. now rewrite Hk, Hx.
Qed.

Lemma split_part (x : string) :
  slash_free x = true -> PyStr.split "/" x = [x].
Proof.
  induction x as [|c x IH]; cbn [PyStr.split slash_free]; [reflexivity|].
  intros H. apply andb_true_iff in H as [Hc Hx]. apply negb_true_iff in Hc.
  rewrite Hc, (IH Hx). reflexivity.
Qed.

Lemma split_part_slash (x rest : string) :
  slash_free x = true ->
  PyStr.split "/" (x +:+ String "/" rest) = x :: PyStr.split "/" rest.
Proof.
  induction x as [|c x IH]; intros H.
  - reflexivity.
  - cbn [slash_free] in H. apply andb_true_iff in H as [Hc Hx]. apply negb_true_iff in Hc.
    rewrite append_cons. cbn [PyStr.split]. rewrite Hc, (IH Hx). reflexivity.
Qed.

Lemma split_join (ps : list string) :
  ps <> [] -> Forall (fun x => proper_part x = true) ps ->
  PyStr.split "/" (PyStr.join "/" ps) = ps.
Proof.
  induction ps as [|x rest IH]; [congruence|]. intros _ H.
  inversion H as [|? ? Hx Hrest]; subst.
  unfold proper_part in Hx. apply andb_true_iff in Hx as [_ Hx].
  destruct rest as [|y rest].
  - cbn [PyStr.join]. now apply split_part.
  - change (PyStr.join "/" (x :: y :: rest))
      with (x +:+ String "/" (PyStr.join "/" (y :: rest))).
    rewrite (split_part_slash _ _ Hx), IH; [reflexivity | discriminate | exact Hrest].
Qed.

Lemma filter_proper (ps : list string) :
  Forall (fun x => proper_part x = true) ps -> List.filter PyPath.keep_part ps = ps.
Proof.
  induction 1 as [|x l Hx Hl IH]; cbn [List.filter]; [reflexivity|].
  unfold proper_part in Hx. apply andb_true_iff in Hx as [-> _]. now rewrite IH.
Qed.

Lemma proper_part_starts (x : string) :
  proper_part x = true -> exists c rest, x = String c rest /\ Ascii.eqb c "/" = false.
Proof.
  unfold proper_part, PyPath.keep_part. destruct x as [|c x]; [discriminate|].
  cbn [slash_free]. intros Hx.
  apply andb_true_iff in Hx as [_ Hx]. apply andb_true_iff in Hx as [Hc _].
  apply negb_true_iff in Hc. now exists c, x.
Qed.

Lemma join_starts_clean (ps : list string) :
  Forall (fun x => proper_part x = true) ps ->
  PyPath.leading_slashes (PyStr.join "/" ps) = 0%nat.
Proof.
  destruct 1 as [|x l Hx Hl]; [reflexivity|].
  destruct (proper_part_starts x Hx) as (c & rest & -> & Hc).
  destruct l; cbn [PyStr.join]; rewrite ?append_cons; cbn [PyPath.leading_slashes];
    now rewrite Hc.
Qed.

(** A path whose components are proper is read back from its text. *)
Lemma of_str_to_str (p : Path) :
  Forall (fun x => proper_part x = true) (p_parts p) ->
  PyPath.of_str (PyPath.to_str p) = p.
Proof.
  destruct p as [r ps]. cbn [p_parts]. intros Hps.
  unfold PyPath.to_str. cbn [p_root p_parts].
  pose proof (join_starts_clean ps Hps) as Hlead.
  assert (List.filter PyPath.keep_part (PyStr.split "/" (PyStr.join "/" ps)) = ps) as Hparts.
  { destruct ps as [|x rest]; [reflexivity|].
    rewrite split_join by (discriminate || assumption). now apply filter_proper. }
  destruct r, ps as [|x rest]; unfold PyPath.of_str, PyPath.root_str;
    rewrite ?append_nil_l, ?append_cons;
    cbn [PyPath.leading_slashes PyStr.split Ascii.eqb Bool.eqb];
    rewrite ?append_nil_l, ?Hlead; try reflexivity;
    cbn [List.filter PyPath.keep_part String.eqb negb andb];
    now rewrite Hparts.
Qed.

Lemma of_str_proper_part (name : string) :
  proper_part name = true ->
  PyPath.of_str name = {| p_root := NoRoot; p_parts := [name] |}.
Proof.
  intros Hname. unfold PyPath.of_str.
  destruct (proper_part_starts name Hname) as (c & rest & Hx & Hc).
  assert (PyPath.leading_slashes name = 0%nat) as ->
    by (rewrite Hx; cbn [PyPath.leading_slashes]; now rewrite Hc).
  pose proof Hname as Hk. unfold proper_part in Hk. apply andb_true_iff in Hk as [Hk Hs].
  rewrite (split_part name Hs). cbn [List.filter]. now rewrite Hk.
Qed.

Lemma joinpath_proper_part (p : Path) (name : string) :
  proper_part name = true ->
  p // name = {| p_root := p_root p; p_parts := p_parts p ++ [name] |}.
Proof.
  intros Hname. unfold PyPath.joinpath. now rewrite (of_str_proper_part name Hname).
Qed.

(** X16. Turning a path into text and the text back into a path gives the
    same path: for every path built from a string (the checkout directory,
    the search result) and for every path got from such a path by appending
    plain names (the [ex] subdirectory, the build descriptor, the binary). *)
Theorem path_text_round_trip (s : string) (names : list string) :
  Forall (fun x => proper_part x = true) names ->
  let p := fold_left PyPath.joinpath names (PyPath.of_str s) in
  PyPath.of_str (PyPath.to_str p) = p
  /\ p_root p = p_root (PyPath.of_str s)
  /\ p_parts p = (p_parts (PyPath.of_str s) ++ names)%list.
Proof.
  intros Hnames. cbv zeta.
  assert (forall q,
            let p := fold_left PyPath.joinpath names q in
            p_root p = p_root q /\ p_parts p = (p_parts q ++ names)%list) as Hfold.
  { induction Hnames as [|x l Hx Hl IH]; intros q; cbn [fold_left].
    - split; [reflexivity | now rewrite app_nil_r].
    - destruct (IH (q // x)) as [Hr Hp]. rewrite Hr, Hp, (joinpath_proper_part q x Hx).
      cbn [p_root p_parts]. split; [reflexivity | now rewrite <- app_assoc]. }
  destruct (Hfold (PyPath.of_str s)) as [Hr Hp].
  split; [|split; [exact Hr | exact Hp]].
  apply of_str_to_str. rewrite Hp. apply Forall_app. split; [|exact Hnames].
  apply of_str_parts_proper.
Qed.

Lemma path_text_round_trip_witness :
  let p := PyPath.of_str "amadeus-node/" // "ex" // "build.Dockerfile" in
  PyPath.of_str (PyPath.to_str p) = p
  /\ PyPath.to_str p = "amadeus-node/ex/build.Dockerfile".
Proof.
  intros p. split; [|vm_compute; reflexivity].
  apply (path_text_round_trip "amadeus-node/" ["ex"; "build.Dockerfile"]).
  repeat constructor.
Defined.
